(** * Verification of the [iac] Pulumi program

    The repository is a Pulumi program written in Python.  Its entry point
    [__main__.py] imports the module [stacks.<stack name>]; importing a stack
    module runs its top-level statements, which read the stack configuration
    and construct resource objects.  Constructing a resource object registers
    a resource declaration with the provisioning engine.

    The development has three parts:
    - the data model (resource declarations, property values, references);
    - the Python program, embedded as programs of a state-and-exception monad
      whose state holds [sys.modules], the module globals and the resources
      registered so far;
    - the dependency-graph resolution of the provisioning engine, which is
      not part of the sources and is modelled from the specification.

    The statements [import pulumi], [import pulumi_aws as aws] and
    [config = pulumi.Config()] bind library objects only; the embedding
    keeps the calls made through them ([config.require], the resource
    constructors, the provider queries) and not the bindings. *)

From Stdlib Require Import Ascii.
From stdpp Require Import gmap strings list relations.

Set Warnings "-register-all".

(** * Data model *)

(** Provider type tags of the resources constructed in the sources. *)
Inductive ResourceKind :=
  | identitystore_Group
  | identitystore_User
  | identitystore_GroupMembership
  | ssoadmin_PermissionSet
  | ssoadmin_AccountAssignment
  | ssoadmin_ManagedPolicyAttachment
  | kms_Key
  | kms_Alias
  | hcloud_Network
  | hcloud_NetworkSubnet
  | hcloud_Server.

#[global] Instance ResourceKind_eq_dec : EqDecision ResourceKind.
Proof. solve_decision. Defined.

(** A declaration is identified by its resource kind and its logical name
    (the first positional argument of the constructor). *)
Abbreviation Key := (ResourceKind * string)%type.

(** Property values: Python literals, and [VOutput k a], the output attribute
    [a] of the resource [k] (what [resource.attr] evaluates to). *)
Inductive Value :=
  | VStr (s : string)
  | VBool (b : bool)
  | VInt (z : Z)
  | VList (items : list Value)
  | VDict (items : list (string * Value))
  | VOutput (target : Key) (attr : string).

Record ResourceDeclaration := {
  resource_kind : ResourceKind;
  logical_name : string;
  properties : list (string * Value);
  explicit_dependencies : list Key;
}.

Definition key_of (d : ResourceDeclaration) : Key :=
  (resource_kind d, logical_name d).

(** Lookup in a Python keyword-argument list or dict literal. *)
Fixpoint assoc {A} (k : string) (l : list (string * A)) : option A :=
  match l with
  | [] => None
  | (k', v) :: l' => if decide (k = k') then Some v else assoc k l'
  end.

Definition property (d : ResourceDeclaration) (p : string) : option Value :=
  assoc p (properties d).

(** The references held by a value, in order of occurrence. *)
Fixpoint value_refs (v : Value) : list Key :=
  match v with
  | VStr _ | VBool _ | VInt _ => []
  | VList items =>
      (fix go (l : list Value) : list Key :=
         match l with
         | [] => []
         | x :: l' => value_refs x ++ go l'
         end) items
  | VDict items =>
      (fix go (l : list (string * Value)) : list Key :=
         match l with
         | [] => []
         | (_, x) :: l' => value_refs x ++ go l'
         end) items
  | VOutput target _ => [target]
  end.

Definition property_refs (d : ResourceDeclaration) : list Key :=
  concat (map (λ p, value_refs p.2) (properties d)).

(** The edges of the dependency graph that leave [d]: the targets of the
    references in its properties, then its explicit dependencies. *)
Definition dependencies (d : ResourceDeclaration) : list Key :=
  property_refs d ++ explicit_dependencies d.

(** * The Python program *)

(** The configuration store and the provider answers the program reads. *)
Record World := {
  stack_name : string;                 (* pulumi.get_stack() *)
  config : gmap string string;         (* configuration of the active stack *)
  sso_instances : list string;         (* ARNs reported by ssoadmin.get_instances() *)
  caller_account : string;             (* account of aws.get_caller_identity() *)
}.

(** The same data as the running program sees it. *)
Record Context := {
  ctx_stack : string;
  ctx_config : string → option string;
  ctx_sso_instances : list string;
  ctx_caller_account : string;
}.

Definition context_of (w : World) : Context :=
  {| ctx_stack := stack_name w;
     ctx_config := λ k, config w !! k;
     ctx_sso_instances := sso_instances w;
     ctx_caller_account := caller_account w |}.

(** Values bound to module-level variables. *)
Inductive PyVal :=
  | PStr (s : string)
  | PInstances (arns : list string)      (* GetInstancesResult *)
  | PCallerIdentity (account_id : string) (* GetCallerIdentityResult *)
  | PResource (k : Key).

Inductive PyError :=
  | ModuleNotFoundError (name : string)
  | ImportError (module name : string)
  | AttributeError
  | IndexError
  | MissingConfiguration (key stack : string).

Inductive Result (A : Type) :=
  | Ok (a : A)
  | Raise (e : PyError).
Arguments Ok {A} a.
Arguments Raise {A} e.

Record PyState := {
  sys_modules : list string;                     (* modules imported so far *)
  globals : list (string * (string * PyVal));    (* module ↦ name ↦ value, newest first *)
  registered : list ResourceDeclaration;         (* in order of construction *)
}.

Definition initial_state : PyState :=
  {| sys_modules := []; globals := []; registered := [] |}.

Definition M (A : Type) : Type := Context → PyState → Result A * PyState.

#[global] Instance M_ret : MRet M := λ A a _ st, (Ok a, st).
#[global] Instance M_bind : MBind M := λ A B f m ctx st,
  match m ctx st with
  | (Ok a, st') => f a ctx st'
  | (Raise e, st') => (Raise e, st')
  end.

Definition raise {A} (e : PyError) : M A := λ _ st, (Raise e, st).
Definition ask : M Context := λ ctx st, (Ok ctx, st).
Definition get_state : M PyState := λ _ st, (Ok st, st).
Definition put_state (st : PyState) : M () := λ _ _, (Ok (), st).

(** ** Module system *)

Record PyModule := { __name__ : string; body : M () }.

(** [module.name = v] at module level. *)
Definition setattr (module name : string) (v : PyVal) : M () :=
  st ← get_state;
  put_state {| sys_modules := sys_modules st;
               globals := (module, (name, v)) :: globals st;
               registered := registered st |}.

Fixpoint lookup_global (module name : string)
    (g : list (string * (string * PyVal))) : option PyVal :=
  match g with
  | [] => None
  | (m, (n, v)) :: g' =>
      if decide (m = module ∧ n = name) then Some v else lookup_global module name g'
  end.

(** Import of a module object: its body runs the first time only; the module
    is entered in [sys.modules] before its body runs.  (The packages on the
    path of a relative import, [stacks.aws] and [stacks.aws.iam], are either
    the importing package itself or a namespace package, whose import runs
    no code.) *)
Definition import_module (m : PyModule) : M () :=
  st ← get_state;
  if decide (__name__ m ∈ sys_modules st) then mret ()
  else
    put_state {| sys_modules := __name__ m :: sys_modules st;
                 globals := globals st;
                 registered := registered st |};;
    body m.

(** [from m import name] *)
Definition from_import (m : PyModule) (name : string) : M PyVal :=
  import_module m;;
  st ← get_state;
  match lookup_global (__name__ m) name (globals st) with
  | Some v => mret v
  | None => raise (ImportError (__name__ m) name)
  end.

(** [from m import *] executed in module [into]: every global of [m] is bound
    in [into] (none of the names in the sources starts with an underscore). *)
Definition import_star (into : string) (m : PyModule) : M () :=
  import_module m;;
  st ← get_state;
  let copied :=
    omap (λ e, if decide (e.1 = __name__ m) then Some (into, e.2) else None)
         (globals st) in
  put_state {| sys_modules := sys_modules st;
               globals := copied ++ globals st;
               registered := registered st |}.

(** ** Pulumi library calls used by the sources *)

(** [pulumi.get_stack()] *)
Definition get_stack : M string := ctx ← ask; mret (ctx_stack ctx).

(** Modelled from the spec: [pulumi.Config().require] belongs to the Pulumi
    library, which is not part of the sources.  Following the configuration
    accessor of the specification, [require key] returns the value
    configured for [key] in the active stack and fails with
    [MissingConfiguration], identifying the key and the stack, when the key
    is absent. *)
Definition require (key : string) : M string :=
  ctx ← ask;
  match ctx_config ctx key with
  | Some v => mret v
  | None => raise (MissingConfiguration key (ctx_stack ctx))
  end.

(** [aws.ssoadmin.get_instances()]: a synchronous provider query. *)
Definition ssoadmin_get_instances : M PyVal :=
  ctx ← ask; mret (PInstances (ctx_sso_instances ctx)).

(** [aws.get_caller_identity()] *)
Definition get_caller_identity : M PyVal :=
  ctx ← ask; mret (PCallerIdentity (ctx_caller_account ctx)).

(** [v.arns] *)
Definition arns (v : PyVal) : M (list string) :=
  match v with
  | PInstances l => mret l
  | _ => raise AttributeError
  end.

(** [l[i]] on a Python list: [IndexError] out of range. *)
Definition subscript (l : list string) (i : nat) : M string :=
  match l !! i with
  | Some x => mret x
  | None => raise IndexError
  end.

(** [r.attr] for a resource object [r]: a reference to an output attribute. *)
Definition output (r : PyVal) (attr : string) : M Value :=
  match r with
  | PResource k => mret (VOutput k attr)
  | _ => raise AttributeError
  end.

(** A configuration string passed as a property. *)
Definition str (v : PyVal) : M Value :=
  match v with
  | PStr s => mret (VStr s)
  | _ => raise AttributeError
  end.

(** The resource object itself, as an element of [depends_on]. *)
Definition resource (r : PyVal) : M Key :=
  match r with
  | PResource k => mret k
  | _ => raise AttributeError
  end.

(** A resource constructor call [Kind(name, **props, opts=ResourceOptions(
    depends_on=deps))]: the declaration is registered and the resource
    object is returned. *)
Definition Resource (kind : ResourceKind) (name : string)
    (props : list (string * Value)) (depends_on : list Key) : M PyVal :=
  st ← get_state;
  put_state {| sys_modules := sys_modules st;
               globals := globals st;
               registered := registered st ++
                 [{| resource_kind := kind; logical_name := name;
                     properties := props;
                     explicit_dependencies := depends_on |}] |};;
  mret (PResource (kind, name)).

(** ** The modules under [stacks/] *)

Module stacks.

Module aws.

Module iam.

(** [stacks/aws/iam/sso.py] *)
Module sso.
Definition name := "stacks.aws.iam.sso".
Definition code : M () :=
  sso_identity_store_id ← require "sso_identity_store_id";
  setattr name "sso_identity_store_id" (PStr sso_identity_store_id);;
  sso_instance ← ssoadmin_get_instances;
  setattr name "sso_instance" sso_instance.
Definition module := {| __name__ := name; body := code |}.
End sso.

(** [stacks/aws/iam/permission_sets.py] *)
Module permission_sets.
Definition name := "stacks.aws.iam.permission_sets".
Definition code : M () :=
  sso_instance ← from_import sso.module "sso_instance";
  setattr name "sso_instance" sso_instance;;
  sso_instance_arns ← arns sso_instance;
  instance_arn ← subscript sso_instance_arns 0;
  administrator_permission_set ←
    Resource ssoadmin_PermissionSet "administrator"
      [("name", VStr "administrator");
       ("instance_arn", VStr instance_arn)] [];
  setattr name "administrator_permission_set" administrator_permission_set.
Definition module := {| __name__ := name; body := code |}.
End permission_sets.

(** [stacks/aws/iam/groups.py] *)
Module groups.
Definition name := "stacks.aws.iam.groups".
Definition code : M () :=
  sso_identity_store_id ← from_import sso.module "sso_identity_store_id";
  setattr name "sso_identity_store_id" sso_identity_store_id;;
  identity_store_id ← str sso_identity_store_id;
  sso_group_admins ←
    Resource identitystore_Group "admins"
      [("display_name", VStr "Admins");
       ("identity_store_id", identity_store_id)] [];
  setattr name "sso_group_admins" sso_group_admins;;
  sso_group_editors ←
    Resource identitystore_Group "editors"
      [("display_name", VStr "Editors");
       ("identity_store_id", identity_store_id)] [];
  setattr name "sso_group_editors" sso_group_editors.
Definition module := {| __name__ := name; body := code |}.
End groups.

(** [stacks/aws/iam/users.py] *)
Module users.
Definition name := "stacks.aws.iam.users".
Definition code : M () :=
  sso_identity_store_id ← from_import sso.module "sso_identity_store_id";
  setattr name "sso_identity_store_id" sso_identity_store_id;;
  identity_store_id ← str sso_identity_store_id;
  v2kk ←
    Resource identitystore_User "v2kk"
      [("identity_store_id", identity_store_id);
       ("display_name", VStr "Quyen Dang");
       ("user_name", VStr "v2kk");
       ("name", VDict [("given_name", VStr "Quyen");
                       ("family_name", VStr "Dang")]);
       ("emails", VDict [("primary", VBool true);
                         ("value", VStr "23162082@student.hcmute.edu.vn")])] [];
  setattr name "v2kk" v2kk.
Definition module := {| __name__ := name; body := code |}.
End users.

(** [stacks/aws/iam/assignments.py] *)
Module assignments.
Definition name := "stacks.aws.iam.assignments".
Definition code : M () :=
  sso_instance ← from_import sso.module "sso_instance";
  setattr name "sso_instance" sso_instance;;
  administrator_permission_set ←
    from_import permission_sets.module "administrator_permission_set";
  setattr name "administrator_permission_set" administrator_permission_set;;
  sso_group_admins ← from_import groups.module "sso_group_admins";
  setattr name "sso_group_admins" sso_group_admins;;
  account_id ← require "account_id";
  setattr name "account_id" (PStr account_id);;
  sso_instance_arns ← arns sso_instance;
  instance_arn ← subscript sso_instance_arns 0;
  permission_set_arn ← output administrator_permission_set "arn";
  principal_id ← output sso_group_admins "group_id";
  account_assignment ←
    Resource ssoadmin_AccountAssignment "account_assignment"
      [("instance_arn", VStr instance_arn);
       ("permission_set_arn", permission_set_arn);
       ("principal_id", principal_id);
       ("principal_type", VStr "GROUP");
       ("target_id", VStr account_id);
       ("target_type", VStr "AWS_ACCOUNT")] [];
  setattr name "account_assignment" account_assignment.
Definition module := {| __name__ := name; body := code |}.
End assignments.

(** [stacks/aws/iam/group_memberships.py] *)
Module group_memberships.
Definition name := "stacks.aws.iam.group_memberships".
Definition code : M () :=
  sso_identity_store_id ← from_import sso.module "sso_identity_store_id";
  setattr name "sso_identity_store_id" sso_identity_store_id;;
  sso_group_admins ← from_import groups.module "sso_group_admins";
  setattr name "sso_group_admins" sso_group_admins;;
  v2kk ← from_import users.module "v2kk";
  setattr name "v2kk" v2kk;;
  identity_store_id ← str sso_identity_store_id;
  group_id ← output sso_group_admins "group_id";
  member_id ← output v2kk "user_id";
  group_membership ←
    Resource identitystore_GroupMembership "administrator"
      [("identity_store_id", identity_store_id);
       ("group_id", group_id);
       ("member_id", member_id)] [];
  setattr name "group_membership" group_membership.
Definition module := {| __name__ := name; body := code |}.
End group_memberships.

(** [stacks/aws/iam/managed_policy_attachment.py] *)
Module managed_policy_attachment.
Definition name := "stacks.aws.iam.managed_policy_attachment".
Definition code : M () :=
  sso_instance ← from_import sso.module "sso_instance";
  setattr name "sso_instance" sso_instance;;
  administrator_permission_set ←
    from_import permission_sets.module "administrator_permission_set";
  setattr name "administrator_permission_set" administrator_permission_set;;
  sso_instance_arns ← arns sso_instance;
  instance_arn ← subscript sso_instance_arns 0;
  permission_set_arn ← output administrator_permission_set "arn";
  managed_policy_attachment ←
    Resource ssoadmin_ManagedPolicyAttachment "administrator"
      [("instance_arn", VStr instance_arn);
       ("managed_policy_arn", VStr "arn:aws:iam::aws:policy/AdministratorAccess");
       ("permission_set_arn", permission_set_arn)] [];
  setattr name "managed_policy_attachment" managed_policy_attachment.
Definition module := {| __name__ := name; body := code |}.
End managed_policy_attachment.

End iam.

(** [stacks/aws/kms.py] *)
Module kms.
Definition name := "stacks.aws.kms".
Definition code : M () :=
  hcloud_token ←
    Resource kms_Key "hcloud_token"
      [("description", VStr "Symmetric encryption KMS key for hcloud_token");
       ("enable_key_rotation", VBool true);
       ("deletion_window_in_days", VInt 20);
       ("tags", VDict [("service", VStr "sops")])] [];
  setattr name "hcloud_token" hcloud_token;;
  target_key_id ← output hcloud_token "key_id";
  hcloud_token_alias ←
    Resource kms_Alias "hcloud_token_a"
      [("name", VStr "alias/hcloud_token");
       ("target_key_id", target_key_id)] [];
  setattr name "hcloud_token_alias" hcloud_token_alias.
Definition module := {| __name__ := name; body := code |}.
End kms.

(** [stacks/aws/__init__.py].  The file is the body of the package
    [stacks.aws]; Python also finds it as the submodule [__init__] of that
    package, and importing [stacks.aws.__init__] runs the file a second
    time, under that name.  [code_as] is the file run as the module
    [module_name]. *)
Definition name := "stacks.aws".
Definition code_as (module_name : string) : M () :=
  import_star module_name iam.permission_sets.module;;
  import_star module_name iam.groups.module;;
  import_star module_name iam.users.module;;
  import_star module_name iam.assignments.module;;
  import_star module_name iam.group_memberships.module;;
  import_star module_name iam.managed_policy_attachment.module;;
  import_star module_name kms.module;;
  current ← get_caller_identity;
  setattr module_name "current" current.
Definition code : M () := code_as name.
Definition module := {| __name__ := name; body := code |}.
Definition init_module :=
  {| __name__ := "stacks.aws.__init__"; body := code_as "stacks.aws.__init__" |}.

End aws.

(** [stacks/vm-hcloud/__init__.py], the body of the package
    [stacks.vm-hcloud] and, run a second time, of its submodule
    [__init__]; [code_as] is the file run as the module [module_name]. *)
Module vm_hcloud.
Definition name := "stacks.vm-hcloud".
Definition code_as (module_name : string) : M () :=
  network_ip_range ← require "network_ip_range";
  setattr module_name "network_ip_range" (PStr network_ip_range);;
  network_subnet_dmz_ip_range ← require "network_subnet_dmz_ip_range";
  setattr module_name "network_subnet_dmz_ip_range" (PStr network_subnet_dmz_ip_range);;
  network ←
    Resource hcloud_Network "network"
      [("name", VStr "network");
       ("ip_range", VStr network_ip_range)] [];
  setattr module_name "network" network;;
  network_id ← output network "id";
  network_subnet ←
    Resource hcloud_NetworkSubnet "network-subnet-dmz"
      [("type", VStr "cloud");
       ("network_id", network_id);
       ("network_zone", VStr "ap-southeast");
       ("ip_range", VStr network_subnet_dmz_ip_range)] [];
  setattr module_name "network_subnet" network_subnet;;
  subnet ← resource network_subnet;
  server ←
    Resource hcloud_Server "server"
      [("name", VStr "server");
       ("server_type", VStr "cpx11");
       ("image", VStr "ubuntu-24.04");
       ("location", VStr "sin");
       ("networks", VList [VDict [("network_id", network_id);
                                  ("ip", VStr "10.0.1.5");
                                  ("alias_ips", VList [VStr "10.0.1.6";
                                                       VStr "10.0.1.7"])]])]
      [subnet];
  setattr module_name "server" server.
Definition code : M () := code_as name.
Definition module := {| __name__ := name; body := code |}.
Definition init_module :=
  {| __name__ := "stacks.vm-hcloud.__init__";
     body := code_as "stacks.vm-hcloud.__init__" |}.
End vm_hcloud.

End stacks.

(** ** Import by name and the entry point *)

(** The packages and modules below the program directory.  A directory
    without [__init__.py] ([stacks], [stacks/aws/iam]) is a namespace
    package: importing it runs no code. *)
Inductive ModuleTree :=
  | Node (m : PyModule) (children : list (string * ModuleTree)).

Definition namespace_package (name : string) : PyModule :=
  {| __name__ := name; body := mret () |}.

(** The modules below the aws package, apart from its own [__init__.py]. *)
Definition aws_submodules : list (string * ModuleTree) :=
  [("iam", Node (namespace_package "stacks.aws.iam")
     [("sso", Node stacks.aws.iam.sso.module []);
      ("permission_sets", Node stacks.aws.iam.permission_sets.module []);
      ("groups", Node stacks.aws.iam.groups.module []);
      ("users", Node stacks.aws.iam.users.module []);
      ("assignments", Node stacks.aws.iam.assignments.module []);
      ("group_memberships", Node stacks.aws.iam.group_memberships.module []);
      ("managed_policy_attachment",
         Node stacks.aws.iam.managed_policy_attachment.module [])]);
   ("kms", Node stacks.aws.kms.module [])].

(** The packages directly under [stacks/]: one per stack.  The file
    [__init__.py] of a package is also its submodule [__init__]; a
    namespace package has no such file. *)
Definition stack_packages : list (string * ModuleTree) :=
  [("aws", Node stacks.aws.module
     (("__init__", Node stacks.aws.init_module []) :: aws_submodules));
   ("vm-hcloud", Node stacks.vm_hcloud.module
     [("__init__", Node stacks.vm_hcloud.init_module [])])].

Definition source_tree : list (string * ModuleTree) :=
  [("stacks", Node (namespace_package "stacks") stack_packages)].

(** The names of the stacks the repository declares. *)
Definition stack_names : list string := stack_packages.*1.

(** [s.split(".")] *)
Fixpoint split_dots (s : string) : list string :=
  match s with
  | EmptyString => [""]
  | String c s' =>
      if Ascii.eqb c "."%char then "" :: split_dots s'
      else match split_dots s' with
           | h :: t => String c h :: t
           | [] => [String c ""]
           end
  end.

(** Import of a dotted name: every package on the path is imported in turn,
    parents first; the first component that is not found raises
    [ModuleNotFoundError] with the dotted name up to it. *)
Fixpoint find_and_load (parent : string) (children : list (string * ModuleTree))
    (path : list string) : M () :=
  match path with
  | [] => mret ()
  | c :: rest =>
      let fullname := if decide (parent = "") then c else parent +:+ "." +:+ c in
      match assoc c children with
      | None => raise (ModuleNotFoundError fullname)
      | Some (Node m sub) => import_module m;; find_and_load fullname sub rest
      end
  end.

Definition __import__ (name : string) : M () :=
  find_and_load "" source_tree (split_dots name).

(** [__main__.py] *)
Definition main : M () :=
  stackName ← get_stack;
  let moduleName := "stacks." +:+ stackName in
  __import__ moduleName.

(** A run of the program in a world: the outcome and the final state, which
    holds the resources registered up to the end or up to the failure. *)
Definition load (w : World) : Result () * PyState :=
  main (context_of w) initial_state.

Definition outcome (w : World) : Result () := (load w).1.
Definition declared (w : World) : list ResourceDeclaration :=
  registered (load w).2.

(** * Dependency-graph resolution *)

(** The graph of a declaration set: [depends_on decls a b] is the edge
    [a → b], "b must be applied before a". *)
Definition declared_keys (decls : list ResourceDeclaration) : list Key :=
  map key_of decls.

Definition depends_on (decls : list ResourceDeclaration) (a b : Key) : Prop :=
  ∃ d, d ∈ decls ∧ key_of d = a ∧ b ∈ dependencies d.

Definition acyclic (decls : list ResourceDeclaration) : Prop :=
  ∀ k, ¬ tc (depends_on decls) k k.

(** No reference dangles: every edge ends at a declaration of the set. *)
Definition closed (decls : list ResourceDeclaration) : Prop :=
  ∀ a b, depends_on decls a b → b ∈ declared_keys decls.

Definition unique_keys (decls : list ResourceDeclaration) : Prop :=
  NoDup (declared_keys decls).

(** [order.index(k)] *)
Fixpoint index_of (k : Key) (order : list Key) : option nat :=
  match order with
  | [] => None
  | x :: order' => if decide (x = k) then Some 0 else S <$> index_of k order'
  end.

Definition precedes (order : list Key) (a b : Key) : Prop :=
  ∃ i j, index_of a order = Some i ∧ index_of b order = Some j ∧ i < j.

(** An order respects the graph when every dependency precedes its
    dependents. *)
Definition respects (decls : list ResourceDeclaration) (order : list Key) : Prop :=
  ∀ a b, depends_on decls a b → precedes order b a.

Inductive GraphError :=
  | CyclicDependency (members : list Key)
  | DanglingReference (target : Key).

Inductive Resolution :=
  | Order (order : list Key)
  | Rejected (e : GraphError)
  | Exhausted.

Fixpoint find_declaration (decls : list ResourceDeclaration) (k : Key)
    : option ResourceDeclaration :=
  match decls with
  | [] => None
  | d :: decls' => if decide (key_of d = k) then Some d else find_declaration decls' k
  end.

(** The members of the cycle closed by meeting [n] again: [n] and the nodes
    entered after it. *)
Fixpoint cycle_of (n : Key) (visiting : list Key) : list Key :=
  match visiting with
  | [] => []
  | v :: visiting' => if decide (v = n) then [n] else cycle_of n visiting' ++ [v]
  end.

(** The dependencies of a node, visited in turn, threading the order built
    so far; the first failure stops the walk. *)
Fixpoint visit_all (visit1 : Key → list Key → Resolution)
    (deps : list Key) (done : list Key) : Resolution :=
  match deps with
  | [] => Order done
  | dep :: deps' =>
      match visit1 dep done with
      | Order done' => visit_all visit1 deps' done'
      | r => r
      end
  end.

(** Modelled from the spec: the dependency-graph resolution is done by the
    provisioning engine, which is not part of the sources.  Following the
    specification, it is a depth-first topological sort: [visiting] holds the
    nodes in "visiting" state, [done] the order built so far; a node met
    again while "visiting" signals [CyclicDependency], a reference to a key
    that is not declared signals [DanglingReference], and a node is appended
    to the order once all its dependencies are in it. *)
Fixpoint visit (decls : list ResourceDeclaration) (fuel : nat)
    (visiting : list Key) (n : Key) (done : list Key) : Resolution :=
  match fuel with
  | 0 => Exhausted
  | S fuel' =>
      if decide (n ∈ done) then Order done
      else if decide (n ∈ visiting) then
        Rejected (CyclicDependency (cycle_of n visiting))
      else
        match find_declaration decls n with
        | None => Rejected (DanglingReference n)
        | Some d =>
            match visit_all (visit decls fuel' (n :: visiting))
                            (dependencies d) done with
            | Order done' => Order (done' ++ [n])
            | r => r
            end
        end
  end.

(** Modelled from the spec: the apply order of a declaration set.  The roots
    of the traversal are taken in declaration order, which is the order
    between declarations that no dependency relates. *)
Definition resolve (decls : list ResourceDeclaration) : Resolution :=
  visit_all (visit decls (S (length decls)) []) (declared_keys decls) [].

(** A boolean check that an order respects the graph. *)
Definition respectsb (decls : list ResourceDeclaration) (order : list Key) : bool :=
  forallb (λ d,
    forallb (λ b,
      match index_of b order, index_of (key_of d) order with
      | Some i, Some j => bool_decide (i < j)
      | _, _ => false
      end) (dependencies d)) decls.

(** The invariant of the order under construction: no key twice, every key
    declared, and all dependencies of a key placed before it. *)
Inductive topo (decls : list ResourceDeclaration) : list Key → Prop :=
  | topo_nil : topo decls []
  | topo_snoc l k d :
      topo decls l → k ∉ l → find_declaration decls k = Some d →
      (∀ x, x ∈ dependencies d → x ∈ l) → topo decls (l ++ [k]).

(** What a successful visit guarantees, as a property of the visiting
    function: the order is extended, stays well formed, contains the node,
    and gains none of the keys in [avoid]. *)
Definition extends (decls : list ResourceDeclaration) (avoid : list Key)
    (visit1 : Key → list Key → Resolution) : Prop :=
  ∀ n acc acc', topo decls acc → visit1 n acc = Order acc' →
    ∃ ext, acc' = acc ++ ext ∧ topo decls acc' ∧ n ∈ acc' ∧ ∀ v, v ∈ avoid → v ∉ ext.

(** Python evaluates a reference only after the object it refers to has been
    constructed, so at every point of a run the declarations registered so
    far are in an order that respects their dependencies. *)
Definition declared_in_order (decls : list ResourceDeclaration) : Prop :=
  unique_keys decls ∧ respects decls (declared_keys decls).

(** * The declarations of the stacks *)

(** The declarations made by the sources, as functions of the configuration
    values and provider answers embedded in them.  [aws_run] and
    [vm_hcloud_run] below prove that they are what the program registers. *)
Module Declared.

Definition administrator_permission_set (instance_arn : string) :=
  {| resource_kind := ssoadmin_PermissionSet; logical_name := "administrator";
     properties := [("name", VStr "administrator");
                    ("instance_arn", VStr instance_arn)];
     explicit_dependencies := [] |}.

Definition sso_group_admins (sso_identity_store_id : string) :=
  {| resource_kind := identitystore_Group; logical_name := "admins";
     properties := [("display_name", VStr "Admins");
                    ("identity_store_id", VStr sso_identity_store_id)];
     explicit_dependencies := [] |}.

Definition sso_group_editors (sso_identity_store_id : string) :=
  {| resource_kind := identitystore_Group; logical_name := "editors";
     properties := [("display_name", VStr "Editors");
                    ("identity_store_id", VStr sso_identity_store_id)];
     explicit_dependencies := [] |}.

Definition v2kk (sso_identity_store_id : string) :=
  {| resource_kind := identitystore_User; logical_name := "v2kk";
     properties :=
       [("identity_store_id", VStr sso_identity_store_id);
        ("display_name", VStr "Quyen Dang");
        ("user_name", VStr "v2kk");
        ("name", VDict [("given_name", VStr "Quyen"); ("family_name", VStr "Dang")]);
        ("emails", VDict [("primary", VBool true);
                          ("value", VStr "23162082@student.hcmute.edu.vn")])];
     explicit_dependencies := [] |}.

Definition account_assignment (instance_arn account_id : string) :=
  {| resource_kind := ssoadmin_AccountAssignment; logical_name := "account_assignment";
     properties :=
       [("instance_arn", VStr instance_arn);
        ("permission_set_arn", VOutput (ssoadmin_PermissionSet, "administrator") "arn");
        ("principal_id", VOutput (identitystore_Group, "admins") "group_id");
        ("principal_type", VStr "GROUP");
        ("target_id", VStr account_id);
        ("target_type", VStr "AWS_ACCOUNT")];
     explicit_dependencies := [] |}.

Definition group_membership (sso_identity_store_id : string) :=
  {| resource_kind := identitystore_GroupMembership; logical_name := "administrator";
     properties :=
       [("identity_store_id", VStr sso_identity_store_id);
        ("group_id", VOutput (identitystore_Group, "admins") "group_id");
        ("member_id", VOutput (identitystore_User, "v2kk") "user_id")];
     explicit_dependencies := [] |}.

Definition managed_policy_attachment (instance_arn : string) :=
  {| resource_kind := ssoadmin_ManagedPolicyAttachment; logical_name := "administrator";
     properties :=
       [("instance_arn", VStr instance_arn);
        ("managed_policy_arn", VStr "arn:aws:iam::aws:policy/AdministratorAccess");
        ("permission_set_arn", VOutput (ssoadmin_PermissionSet, "administrator") "arn")];
     explicit_dependencies := [] |}.

Definition hcloud_token :=
  {| resource_kind := kms_Key; logical_name := "hcloud_token";
     properties :=
       [("description", VStr "Symmetric encryption KMS key for hcloud_token");
        ("enable_key_rotation", VBool true);
        ("deletion_window_in_days", VInt 20);
        ("tags", VDict [("service", VStr "sops")])];
     explicit_dependencies := [] |}.

Definition hcloud_token_alias :=
  {| resource_kind := kms_Alias; logical_name := "hcloud_token_a";
     properties := [("name", VStr "alias/hcloud_token");
                    ("target_key_id", VOutput (kms_Key, "hcloud_token") "key_id")];
     explicit_dependencies := [] |}.

(** The declarations registered before [assignments.py] asks for
    [account_id]. *)
Definition aws_before_account_id (sso_identity_store_id instance_arn : string) :=
  [administrator_permission_set instance_arn;
   sso_group_admins sso_identity_store_id;
   sso_group_editors sso_identity_store_id;
   v2kk sso_identity_store_id].

Definition aws (sso_identity_store_id instance_arn account_id : string) :=
  aws_before_account_id sso_identity_store_id instance_arn ++
  [account_assignment instance_arn account_id;
   group_membership sso_identity_store_id;
   managed_policy_attachment instance_arn;
   hcloud_token;
   hcloud_token_alias].

Definition network (network_ip_range : string) :=
  {| resource_kind := hcloud_Network; logical_name := "network";
     properties := [("name", VStr "network"); ("ip_range", VStr network_ip_range)];
     explicit_dependencies := [] |}.

Definition network_subnet (network_subnet_dmz_ip_range : string) :=
  {| resource_kind := hcloud_NetworkSubnet; logical_name := "network-subnet-dmz";
     properties :=
       [("type", VStr "cloud");
        ("network_id", VOutput (hcloud_Network, "network") "id");
        ("network_zone", VStr "ap-southeast");
        ("ip_range", VStr network_subnet_dmz_ip_range)];
     explicit_dependencies := [] |}.

Definition server :=
  {| resource_kind := hcloud_Server; logical_name := "server";
     properties :=
       [("name", VStr "server");
        ("server_type", VStr "cpx11");
        ("image", VStr "ubuntu-24.04");
        ("location", VStr "sin");
        ("networks",
         VList [VDict [("network_id", VOutput (hcloud_Network, "network") "id");
                       ("ip", VStr "10.0.1.5");
                       ("alias_ips", VList [VStr "10.0.1.6"; VStr "10.0.1.7"])]])];
     explicit_dependencies := [(hcloud_NetworkSubnet, "network-subnet-dmz")] |}.

Definition vm_hcloud (network_ip_range network_subnet_dmz_ip_range : string) :=
  [network network_ip_range; network_subnet network_subnet_dmz_ip_range; server].

End Declared.

(** The outcome of a run and the declarations registered by it. *)
Definition run (ctx : Context) : Result () * list ResourceDeclaration :=
  let r := main ctx initial_state in (r.1, registered r.2).

(** The resource kinds of the two AWS services the stack configures. *)
Definition ssoadmin_kinds : list ResourceKind :=
  [ssoadmin_PermissionSet; ssoadmin_AccountAssignment; ssoadmin_ManagedPolicyAttachment].

Definition identitystore_kinds : list ResourceKind :=
  [identitystore_Group; identitystore_User; identitystore_GroupMembership].

(** Whether a stack name contains a dot. *)
Fixpoint has_dot (s : string) : bool :=
  match s with
  | EmptyString => false
  | String c s' => Ascii.eqb c "."%char || has_dot s'
  end.

(** * Worlds *)

(** Two worlds in which the stacks load. *)
Definition aws_world : World :=
  {| stack_name := "aws";
     config := {[ "sso_identity_store_id" := "d-9067642ac7";
                  "account_id" := "123456789012" ]};
     sso_instances := ["arn:aws:sso:::instance/ssoins-7223a1b2c3d4e5f6"];
     caller_account := "123456789012" |}.

Definition vm_hcloud_world : World :=
  {| stack_name := "vm-hcloud";
     config := {[ "network_ip_range" := "10.0.0.0/16";
                  "network_subnet_dmz_ip_range" := "10.0.1.0/24" ]};
     sso_instances := [];
     caller_account := "" |}.

(** A world in which the provider reports no SSO instance. *)
Definition aws_world_without_instance : World :=
  {| stack_name := "aws";
     config := config aws_world;
     sso_instances := [];
     caller_account := "123456789012" |}.

(** A world in which [account_id] is not configured. *)
Definition aws_world_without_account_id : World :=
  {| stack_name := "aws";
     config := {[ "sso_identity_store_id" := "d-9067642ac7" ]};
     sso_instances := ["arn:aws:sso:::instance/ssoins-7223a1b2c3d4e5f6"];
     caller_account := "123456789012" |}.

(** A stack name that is the dotted path of a module inside the aws
    package. *)
Definition aws_kms_world : World :=
  {| stack_name := "aws.kms";
     config := config aws_world;
     sso_instances := sso_instances aws_world;
     caller_account := caller_account aws_world |}.

(** A world whose stack name is not the name of a stack. *)
Definition staging_world : World :=
  {| stack_name := "staging";
     config := config aws_world;
     sso_instances := sso_instances aws_world;
     caller_account := caller_account aws_world |}.

(** * Definitions for the further properties *)

(** [w] with the configuration key [key] set to [value]. *)
Definition configure (key value : string) (w : World) : World :=
  {| stack_name := stack_name w;
     config := <[key := value]> (config w);
     sso_instances := sso_instances w;
     caller_account := caller_account w |}.

(** [v[key]] on a dict literal and [v[i]] on a list literal. *)
Definition dict_get (key : string) (v : Value) : option Value :=
  match v with
  | VDict items => assoc key items
  | _ => None
  end.

Definition list_get (i : nat) (v : Value) : option Value :=
  match v with
  | VList items => items !! i
  | _ => None
  end.

(** [w] run under the stack name [name]. *)
Definition with_stack (name : string) (w : World) : World :=
  {| stack_name := name;
     config := config w;
     sso_instances := sso_instances w;
     caller_account := caller_account w |}.

(** A subtree whose import runs no module body when the modules [mods] have
    been imported: each of its modules is one of [mods] or a namespace
    package. *)
Inductive quiet (mods : list string) : ModuleTree → Prop :=
  | quiet_node m children :
      __name__ m ∈ mods ∨ body m = mret () →
      Forall (λ c, quiet mods c.2) children →
      quiet mods (Node m children).

(** The modules below the aws package. *)
Definition aws_children : list (string * ModuleTree) :=
  match assoc "aws" stack_packages with
  | Some (Node _ children) => children
  | None => []
  end.

(** [sys.modules] after a load of the aws stack, newest first. *)
Definition aws_modules : list string :=
  ["stacks.aws.kms"; "stacks.aws.iam.managed_policy_attachment";
   "stacks.aws.iam.group_memberships"; "stacks.aws.iam.assignments";
   "stacks.aws.iam.users"; "stacks.aws.iam.groups"; "stacks.aws.iam.sso";
   "stacks.aws.iam.permission_sets"; "stacks.aws"; "stacks"].

(** The variables of the aws modules that hold a resource, with the resource
    each one holds. *)
Definition aws_resource_variables : list (string * Key) :=
  [("administrator_permission_set", (ssoadmin_PermissionSet, "administrator"));
   ("sso_group_admins", (identitystore_Group, "admins"));
   ("sso_group_editors", (identitystore_Group, "editors"));
   ("v2kk", (identitystore_User, "v2kk"));
   ("account_assignment", (ssoadmin_AccountAssignment, "account_assignment"));
   ("group_membership", (identitystore_GroupMembership, "administrator"));
   ("managed_policy_attachment", (ssoadmin_ManagedPolicyAttachment, "administrator"));
   ("hcloud_token", (kms_Key, "hcloud_token"));
   ("hcloud_token_alias", (kms_Alias, "hcloud_token_a"))].

(** The state in which [find_and_load] reaches the stack packages. *)
Definition stacks_imported : PyState :=
  {| sys_modules := ["stacks"]; globals := []; registered := [] |}.

(** [aws_world] with another caller, a second SSO instance and a
    configuration key that no module reads. *)
Definition aws_world_variant : World :=
  {| stack_name := "aws";
     config := <["region" := "ap-southeast-1"]> (config aws_world);
     sso_instances := sso_instances aws_world ++ ["arn:aws:sso:::instance/ssoins-0000000000000000"];
     caller_account := "210987654321" |}.

(** A dotted stack name whose first component is not a stack. *)
Definition staging_eu_world : World := with_stack "staging.eu" aws_world.

(** * Facts about the data model *)

Lemma index_of_Some_elem (k : Key) (order : list Key) (i : nat) :
  index_of k order = Some i → k ∈ order.
Proof.
  revert i. induction order as [|x order IH]; intros i; simpl; [done|].
  destruct (decide (x = k)) as [-> |]; [intros _; left|].
  destruct (index_of k order) eqn:E; [|done].
  intros _. right. by eapply IH.
Qed.

Lemma index_of_prefix (k : Key) (l1 l2 : list Key) :
  k ∈ l1 → ∃ i, index_of k (l1 ++ l2) = Some i ∧ i < length l1.
Proof.
  induction l1 as [|x l1 IH]; [by intros ?%elem_of_nil|].
  intros Hk. simpl. destruct (decide (x = k)) as [-> |Hne].
  - exists 0. split; [done|lia].
  - apply elem_of_cons in Hk as [-> |Hk]; [done|].
    destruct (IH Hk) as (i & -> & Hi). exists (S i). split; [done|lia].
Qed.

Lemma index_of_first (k : Key) (l1 l2 : list Key) :
  k ∉ l1 → index_of k (l1 ++ k :: l2) = Some (length l1).
Proof.
  induction l1 as [|x l1 IH]; intros Hk; simpl.
  - by rewrite decide_True.
  - apply not_elem_of_cons in Hk as [Hne Hk].
    rewrite decide_False by done. by rewrite IH.
Qed.

Lemma precedes_irrefl (order : list Key) (k : Key) : ¬ precedes order k k.
Proof. intros (i & j & Hi & Hj & Hlt). rewrite Hi in Hj. injection Hj as ->. lia. Qed.

Lemma precedes_trans (order : list Key) (a b c : Key) :
  precedes order a b → precedes order b c → precedes order a c.
Proof.
  intros (i & j & Hi & Hj & Hij) (j' & k & Hj' & Hk & Hjk).
  rewrite Hj in Hj'. injection Hj' as <-.
  exists i, k. repeat split; [done..|lia].
Qed.

Lemma precedes_elem (order : list Key) (a b : Key) :
  precedes order a b → a ∈ order ∧ b ∈ order.
Proof. intros (i & j & Hi & Hj & _). split; by eapply index_of_Some_elem. Qed.

Section declaration_set.
Context (decls : list ResourceDeclaration).

Lemma find_declaration_Some (k : Key) (d : ResourceDeclaration) :
  find_declaration decls k = Some d → d ∈ decls ∧ key_of d = k.
Proof.
  induction decls as [|d' l IH]; simpl; [done|].
  destruct (decide (key_of d' = k)) as [Hk|Hk].
  - intros [= <-]. split; [left|done].
  - intros [Hd Hkey]%IH. split; [by right|done].
Qed.

Lemma find_declaration_is_Some (k : Key) :
  k ∈ declared_keys decls → is_Some (find_declaration decls k).
Proof.
  unfold declared_keys. induction decls as [|d' l IH]; simpl.
  - by intros ?%elem_of_nil.
  - destruct (decide (key_of d' = k)); [by eexists|].
    intros [?|?]%elem_of_cons; [congruence|by apply IH].
Qed.

Lemma find_declaration_declared (k : Key) (d : ResourceDeclaration) :
  find_declaration decls k = Some d → k ∈ declared_keys decls.
Proof.
  intros [Hd <-]%find_declaration_Some. unfold declared_keys.
  by apply list_elem_of_fmap_2.
Qed.

Lemma find_declaration_unique (d : ResourceDeclaration) :
  unique_keys decls → d ∈ decls → find_declaration decls (key_of d) = Some d.
Proof.
  unfold unique_keys, declared_keys.
  induction decls as [|d' l IH]; simpl; [by intros _ ?%elem_of_nil|].
  intros [Hnotin Hnodup]%NoDup_cons Hd.
  destruct (decide (key_of d' = key_of d)) as [Heq|Hne].
  - apply elem_of_cons in Hd as [-> |Hd]; [done|].
    exfalso. apply Hnotin. rewrite Heq. by apply list_elem_of_fmap_2.
  - apply elem_of_cons in Hd as [-> |Hd]; [done|]. by apply IH.
Qed.

(** Any order that respects the graph is evidence that it has no cycle. *)
Lemma respects_acyclic (order : list Key) :
  respects decls order → acyclic decls.
Proof.
  intros Hres k Hcycle.
  assert (Hrev : ∀ a b, tc (depends_on decls) a b → precedes order b a).
  { intros a b H. induction H as [a b H|a b c H _ IH].
    - by apply Hres.
    - eapply precedes_trans; [exact IH|by apply Hres]. }
  by eapply precedes_irrefl, Hrev.
Qed.

Lemma respects_closed (order : list Key) :
  respects decls order → order ⊆ declared_keys decls → closed decls.
Proof.
  intros Hres Hsub a b Hab. apply Hsub.
  by destruct (precedes_elem _ _ _ (Hres _ _ Hab)).
Qed.

Lemma respectsb_respects (order : list Key) :
  respectsb decls order = true → respects decls order.
Proof.
  unfold respectsb. rewrite forallb_forall.
  intros Hb a b (d & Hd & <- & Hdep).
  apply list_elem_of_In in Hd. specialize (Hb _ Hd).
  rewrite forallb_forall in Hb.
  apply list_elem_of_In in Hdep. specialize (Hb _ Hdep). simpl in Hb.
  destruct (index_of b order) as [i|] eqn:Hi; [|done].
  destruct (index_of (key_of d) order) as [j|] eqn:Hj; [|done].
  apply bool_decide_eq_true in Hb. by exists i, j.
Qed.

End declaration_set.

(** * Correctness of the resolution *)

Section resolution.
Context (decls : list ResourceDeclaration).

Lemma topo_NoDup (l : list Key) : topo decls l → NoDup l.
Proof.
  induction 1 as [|l k d _ IH Hk _ _]; [constructor|].
  apply NoDup_app. split_and!; [done| |apply NoDup_singleton].
  intros x Hx ->%list_elem_of_singleton. done.
Qed.

Lemma topo_declared (l : list Key) (k : Key) :
  topo decls l → k ∈ l → k ∈ declared_keys decls.
Proof.
  induction 1 as [|l k' d _ IH _ Hd _]; [by intros ?%elem_of_nil|].
  intros [Hk| ->%list_elem_of_singleton]%elem_of_app; [by apply IH|].
  by eapply find_declaration_declared.
Qed.

Lemma topo_split (l : list Key) (k : Key) :
  topo decls l → k ∈ l →
  ∃ l1 l2 d, l = l1 ++ k :: l2 ∧ (k ∉ l1) ∧
    find_declaration decls k = Some d ∧ ∀ x, x ∈ dependencies d → x ∈ l1.
Proof.
  induction 1 as [|l k' d Hl IH Hk' Hd Hdeps]; [by intros ?%elem_of_nil|].
  intros [Hk| ->%list_elem_of_singleton]%elem_of_app.
  - destruct (IH Hk) as (l1 & l2 & d' & -> & ? & ? & ?).
    exists l1, (l2 ++ [k']), d'. by rewrite <- app_assoc.
  - by exists l, [], d.
Qed.

Lemma topo_respects (order : list Key) :
  unique_keys decls → topo decls order → declared_keys decls ⊆ order →
  respects decls order.
Proof.
  intros Huniq Htopo Hall a b (d & Hd & <- & Hb).
  assert (Ha : key_of d ∈ order) by by apply Hall, list_elem_of_fmap_2.
  destruct (topo_split _ _ Htopo Ha) as (l1 & l2 & d' & -> & Hfirst & Hfind & Hdeps).
  rewrite (find_declaration_unique _ _ Huniq Hd) in Hfind. injection Hfind as <-.
  destruct (index_of_prefix b l1 (key_of d :: l2) (Hdeps _ Hb)) as (i & Hi & Hlt).
  exists i, (length l1). split_and!; [done|by apply index_of_first|done].
Qed.

Lemma visit_all_extends (avoid : list Key) visit1 deps acc acc' :
  extends decls avoid visit1 → topo decls acc →
  visit_all visit1 deps acc = Order acc' →
  ∃ ext, acc' = acc ++ ext ∧ topo decls acc' ∧
    (∀ x, x ∈ deps → x ∈ acc') ∧ ∀ v, v ∈ avoid → v ∉ ext.
Proof.
  intros Hvisit. revert acc.
  induction deps as [|dep deps IH]; intros acc Htopo; simpl.
  - intros [= <-]. exists []. rewrite app_nil_r.
    split_and!; [done..| |]; [by intros ? ?%elem_of_nil|by intros ? _ ?%elem_of_nil].
  - destruct (visit1 dep acc) as [acc1| |] eqn:Hdep; [|done..].
    intros Hrest.
    destruct (Hvisit _ _ _ Htopo Hdep) as (ext1 & -> & Htopo1 & Hin1 & Hav1).
    destruct (IH _ Htopo1 Hrest) as (ext2 & -> & Htopo2 & Hin2 & Hav2).
    exists (ext1 ++ ext2). rewrite app_assoc. split_and!; [done..| |].
    + intros x [-> |Hx]%elem_of_cons; [|by apply Hin2].
      apply elem_of_app. by left.
    + intros v Hv [?|?]%elem_of_app; [by eapply Hav1|by eapply Hav2].
Qed.

Lemma visit_extends (fuel : nat) (visiting : list Key) :
  extends decls visiting (visit decls fuel visiting).
Proof.
  revert visiting. induction fuel as [|fuel IH]; intros visiting n acc acc' Htopo;
    simpl; [done|].
  destruct (decide (n ∈ acc)) as [Hdone|Hdone].
  { intros [= <-]. exists []. rewrite app_nil_r.
    split_and!; [done..|]. by intros ? _ ?%elem_of_nil. }
  destruct (decide (n ∈ visiting)) as [|Hvisiting]; [done|].
  destruct (find_declaration decls n) as [d|] eqn:Hd; [|done].
  destruct (visit_all _ _ acc) as [acc1| |] eqn:Hdeps; [|done..].
  intros [= <-].
  destruct (visit_all_extends _ _ _ _ _ (IH (n :: visiting)) Htopo Hdeps)
    as (ext & -> & Htopo1 & Hin & Hav).
  assert (Hfresh : n ∉ acc ++ ext).
  { intros [?|?]%elem_of_app; [done|]. eapply Hav; [left|done]. }
  exists (ext ++ [n]). rewrite app_assoc. split_and!; [done| | |].
  - by eapply topo_snoc.
  - apply elem_of_app. right. left.
  - intros v Hv [?| ->%list_elem_of_singleton]%elem_of_app; [|done].
    eapply Hav; [by right|done].
Qed.

(** A resolved order is a permutation of the declared keys in which every
    dependency precedes its dependents. *)
Lemma resolve_sound (order : list Key) :
  unique_keys decls → resolve decls = Order order →
  order ≡ₚ declared_keys decls ∧ respects decls order.
Proof.
  intros Huniq Hres. unfold resolve in Hres.
  destruct (visit_all_extends [] _ _ _ _ (visit_extends _ []) (topo_nil decls) Hres)
    as (ext & _ & Htopo & Hall & _).
  split.
  - apply NoDup_Permutation; [by apply topo_NoDup|done|].
    intros k. split; [by apply topo_declared|by apply Hall].
  - by apply topo_respects.
Qed.

(** ** The resolution never fails on a well-formed acyclic set *)

Lemma visit_all_Order visit1 (deps : list Key) (acc : list Key) :
  (∀ dep acc1, dep ∈ deps → ∃ acc2, visit1 dep acc1 = Order acc2) →
  ∃ acc', visit_all visit1 deps acc = Order acc'.
Proof.
  revert acc. induction deps as [|dep deps IH]; intros acc Hvisit; simpl.
  - by eexists.
  - destruct (Hvisit dep acc) as [acc1 ->]; [left|].
    apply IH. intros ? ? ?. apply Hvisit. by right.
Qed.

Lemma visiting_bound (visiting : list Key) :
  NoDup visiting → visiting ⊆ declared_keys decls →
  length visiting ≤ length decls.
Proof.
  intros Hnd Hsub. unfold declared_keys in Hsub.
  rewrite <- (length_fmap key_of decls).
  by apply submseteq_length, NoDup_submseteq.
Qed.

Lemma visit_Order (fuel : nat) (visiting : list Key) (n : Key) (acc : list Key) :
  closed decls → acyclic decls →
  NoDup visiting → visiting ⊆ declared_keys decls →
  length decls < fuel + length visiting →
  (∀ v, v ∈ visiting → tc (depends_on decls) v n) →
  n ∈ declared_keys decls →
  ∃ acc', visit decls fuel visiting n acc = Order acc'.
Proof.
  intros Hclosed Hacyclic. revert visiting n acc.
  induction fuel as [|fuel IH]; intros visiting n acc Hnd Hsub Hfuel Hpath Hn.
  { pose proof (visiting_bound _ Hnd Hsub). simpl in Hfuel. lia. }
  simpl. destruct (decide (n ∈ acc)); [by eexists|].
  destruct (decide (n ∈ visiting)) as [Hin|Hnotin].
  { destruct (Hacyclic n). by apply Hpath. }
  destruct (find_declaration_is_Some decls n Hn) as [d Hd]. rewrite Hd.
  apply find_declaration_Some in Hd as [Hd Hkey].
  assert (Hedge : ∀ dep, dep ∈ dependencies d → depends_on decls n dep).
  { intros dep Hdep. by exists d. }
  destruct (visit_all_Order (visit decls fuel (n :: visiting)) (dependencies d) acc)
    as [acc' ->]; [|by eexists].
  intros dep acc1 Hdep. apply IH.
  - by apply NoDup_cons.
  - intros v [-> |Hv]%elem_of_cons; [done|by apply Hsub].
  - simpl. lia.
  - intros v [-> |Hv]%elem_of_cons; [by apply tc_once, Hedge|].
    eapply tc_r; [by apply Hpath|by apply Hedge].
  - eapply Hclosed, Hedge, Hdep.
Qed.

Lemma resolve_complete :
  closed decls → acyclic decls → ∃ order, resolve decls = Order order.
Proof.
  intros Hclosed Hacyclic. unfold resolve.
  apply visit_all_Order. intros k acc Hk.
  apply visit_Order; [done|done|constructor| | | |done].
  - by intros ? ?%elem_of_nil.
  - simpl. lia.
  - by intros ? ?%elem_of_nil.
Qed.

(** The fuel given by [resolve] is never used up, whatever the set. *)
Lemma visit_all_not_Exhausted visit1 (deps : list Key) (acc : list Key) :
  (∀ dep acc1, visit1 dep acc1 ≠ Exhausted) →
  visit_all visit1 deps acc ≠ Exhausted.
Proof.
  intros Hvisit. revert acc. induction deps as [|dep deps IH]; intros acc; simpl; [done|].
  specialize (Hvisit dep acc). destruct (visit1 dep acc); [apply IH|done..].
Qed.

Lemma visit_not_Exhausted (fuel : nat) (visiting : list Key) (n : Key) (acc : list Key) :
  NoDup visiting → visiting ⊆ declared_keys decls →
  length decls < fuel + length visiting →
  visit decls fuel visiting n acc ≠ Exhausted.
Proof.
  revert visiting n acc.
  induction fuel as [|fuel IH]; intros visiting n acc Hnd Hsub Hfuel.
  { pose proof (visiting_bound _ Hnd Hsub). simpl in Hfuel. lia. }
  simpl. destruct (decide (n ∈ acc)); [done|].
  destruct (decide (n ∈ visiting)) as [Hin|Hnotin]; [done|].
  destruct (find_declaration decls n) as [d|] eqn:Hd; [|done].
  pose proof (visit_all_not_Exhausted (visit decls fuel (n :: visiting))
                (dependencies d) acc) as Hall.
  destruct (visit_all _ _ acc); [done|done|].
  exfalso. apply Hall; [|done]. intros dep acc1. apply IH.
  - by apply NoDup_cons.
  - intros v [-> |Hv]%elem_of_cons; [by eapply find_declaration_declared|by apply Hsub].
  - simpl. lia.
Qed.

Lemma resolve_total : resolve decls ≠ Exhausted.
Proof.
  unfold resolve. apply visit_all_not_Exhausted. intros k acc.
  apply visit_not_Exhausted; [constructor|by intros ? ?%elem_of_nil|simpl; lia].
Qed.

End resolution.

(** The two rejections, on small declaration sets. *)
Example resolve_rejects_cycle :
  resolve [ {| resource_kind := kms_Key; logical_name := "a"; properties := [];
               explicit_dependencies := [(kms_Key, "b")] |};
            {| resource_kind := kms_Key; logical_name := "b";
               properties := [("peer", VOutput (kms_Key, "a") "key_id")];
               explicit_dependencies := [] |} ]
  = Rejected (CyclicDependency [(kms_Key, "a"); (kms_Key, "b")]).
Proof. reflexivity. Qed.

Example resolve_rejects_dangling_reference :
  resolve [ {| resource_kind := kms_Alias; logical_name := "a";
               properties := [("target_key_id", VOutput (kms_Key, "k") "key_id")];
               explicit_dependencies := [] |} ]
  = Rejected (DanglingReference (kms_Key, "k")).
Proof. reflexivity. Qed.

(** * What a run registers *)

Lemma run_load (w : World) : run (context_of w) = (outcome w, declared w).
Proof. reflexivity. Qed.

(** The four ways a run of the aws stack can end. *)
Lemma aws_run (cfg : string → option string) (instances : list string) (account : string) :
  run {| ctx_stack := "aws"; ctx_config := cfg;
         ctx_sso_instances := instances; ctx_caller_account := account |} =
  match cfg "sso_identity_store_id" with
  | None => (Raise (MissingConfiguration "sso_identity_store_id" "aws"), [])
  | Some sso_identity_store_id =>
      match instances with
      | [] => (Raise IndexError, [])
      | instance_arn :: _ =>
          match cfg "account_id" with
          | None =>
              (Raise (MissingConfiguration "account_id" "aws"),
               Declared.aws_before_account_id sso_identity_store_id instance_arn)
          | Some account_id =>
              (Ok (), Declared.aws sso_identity_store_id instance_arn account_id)
          end
      end
  end.
Proof.
  vm_compute.
  destruct (cfg "sso_identity_store_id"); [|reflexivity].
  destruct instances; [reflexivity|].
  destruct (cfg "account_id"); reflexivity.
Qed.

(** The three ways a run of the vm-hcloud stack can end. *)
Lemma vm_hcloud_run (cfg : string → option string) (instances : list string)
    (account : string) :
  run {| ctx_stack := "vm-hcloud"; ctx_config := cfg;
         ctx_sso_instances := instances; ctx_caller_account := account |} =
  match cfg "network_ip_range" with
  | None => (Raise (MissingConfiguration "network_ip_range" "vm-hcloud"), [])
  | Some network_ip_range =>
      match cfg "network_subnet_dmz_ip_range" with
      | None => (Raise (MissingConfiguration "network_subnet_dmz_ip_range" "vm-hcloud"), [])
      | Some network_subnet_dmz_ip_range =>
          (Ok (), Declared.vm_hcloud network_ip_range network_subnet_dmz_ip_range)
      end
  end.
Proof.
  vm_compute.
  destruct (cfg "network_ip_range"); [|reflexivity].
  destruct (cfg "network_subnet_dmz_ip_range"); reflexivity.
Qed.

Lemma aws_load (w : World) :
  stack_name w = "aws" →
  (outcome w, declared w) =
  match config w !! "sso_identity_store_id" with
  | None => (Raise (MissingConfiguration "sso_identity_store_id" "aws"), [])
  | Some sso_identity_store_id =>
      match sso_instances w with
      | [] => (Raise IndexError, [])
      | instance_arn :: _ =>
          match config w !! "account_id" with
          | None =>
              (Raise (MissingConfiguration "account_id" "aws"),
               Declared.aws_before_account_id sso_identity_store_id instance_arn)
          | Some account_id =>
              (Ok (), Declared.aws sso_identity_store_id instance_arn account_id)
          end
      end
  end.
Proof.
  destruct w as [s cfg instances account]. simpl. intros ->.
  rewrite <- run_load. apply (aws_run (λ k, cfg !! k)).
Qed.

Lemma vm_hcloud_load (w : World) :
  stack_name w = "vm-hcloud" →
  (outcome w, declared w) =
  match config w !! "network_ip_range" with
  | None => (Raise (MissingConfiguration "network_ip_range" "vm-hcloud"), [])
  | Some network_ip_range =>
      match config w !! "network_subnet_dmz_ip_range" with
      | None => (Raise (MissingConfiguration "network_subnet_dmz_ip_range" "vm-hcloud"), [])
      | Some network_subnet_dmz_ip_range =>
          (Ok (), Declared.vm_hcloud network_ip_range network_subnet_dmz_ip_range)
      end
  end.
Proof.
  destruct w as [s cfg instances account]. simpl. intros ->.
  rewrite <- run_load. apply (vm_hcloud_run (λ k, cfg !! k)).
Qed.

(** A successful load of the aws stack registers [Declared.aws]. *)
Lemma aws_loaded (w : World) :
  stack_name w = "aws" → outcome w = Ok () →
  ∃ sso_identity_store_id instance_arn rest account_id,
    config w !! "sso_identity_store_id" = Some sso_identity_store_id ∧
    sso_instances w = instance_arn :: rest ∧
    config w !! "account_id" = Some account_id ∧
    declared w = Declared.aws sso_identity_store_id instance_arn account_id.
Proof.
  intros Hname Hok. pose proof (aws_load w Hname) as Hload. rewrite Hok in Hload.
  destruct (config w !! "sso_identity_store_id") as [sid|]; [|done].
  destruct (sso_instances w) as [|arn rest]; [done|].
  destruct (config w !! "account_id") as [acc|]; [|done].
  injection Hload as ->. by exists sid, arn, rest, acc.
Qed.

Lemma vm_hcloud_loaded (w : World) :
  stack_name w = "vm-hcloud" → outcome w = Ok () →
  ∃ network_ip_range network_subnet_dmz_ip_range,
    config w !! "network_ip_range" = Some network_ip_range ∧
    config w !! "network_subnet_dmz_ip_range" = Some network_subnet_dmz_ip_range ∧
    declared w = Declared.vm_hcloud network_ip_range network_subnet_dmz_ip_range.
Proof.
  intros Hname Hok. pose proof (vm_hcloud_load w Hname) as Hload. rewrite Hok in Hload.
  destruct (config w !! "network_ip_range") as [r1|]; [|done].
  destruct (config w !! "network_subnet_dmz_ip_range") as [r2|]; [|done].
  injection Hload as ->. by exists r1, r2.
Qed.

(** ** The declaration order is an apply order *)

Lemma declared_in_order_check (decls : list ResourceDeclaration) :
  bool_decide (unique_keys decls) && respectsb decls (declared_keys decls) = true →
  declared_in_order decls.
Proof.
  intros [Huniq Hres]%andb_true_iff. split.
  - by apply bool_decide_eq_true in Huniq.
  - by apply respectsb_respects.
Qed.

Lemma declared_in_order_acyclic (decls : list ResourceDeclaration) :
  declared_in_order decls → acyclic decls.
Proof. intros [_ Hres]. by eapply respects_acyclic. Qed.

Lemma declared_in_order_closed (decls : list ResourceDeclaration) :
  declared_in_order decls → closed decls.
Proof. intros [_ Hres]. by eapply respects_closed. Qed.

Lemma aws_declared_in_order (w : World) :
  stack_name w = "aws" → declared_in_order (declared w).
Proof.
  intros Hname. pose proof (aws_load w Hname) as Hload.
  destruct (config w !! "sso_identity_store_id") as [sid|];
    [destruct (sso_instances w) as [|arn rest];
      [|destruct (config w !! "account_id") as [acc|]]|];
    injection Hload as _ ->; by apply declared_in_order_check.
Qed.

Lemma vm_hcloud_declared_in_order (w : World) :
  stack_name w = "vm-hcloud" → declared_in_order (declared w).
Proof.
  intros Hname. pose proof (vm_hcloud_load w Hname) as Hload.
  destruct (config w !! "network_ip_range") as [r1|];
    [destruct (config w !! "network_subnet_dmz_ip_range") as [r2|]|];
    injection Hload as _ ->; by apply declared_in_order_check.
Qed.

(** * Facts used by the claims *)

Lemma unique_keys_names (decls : list ResourceDeclaration) :
  unique_keys decls →
  ∀ i j d1 d2, i ≠ j → decls !! i = Some d1 → decls !! j = Some d2 →
    resource_kind d1 = resource_kind d2 → logical_name d1 ≠ logical_name d2.
Proof.
  intros Huniq i j d1 d2 Hij H1 H2 Hkind Hname. apply Hij.
  apply (NoDup_lookup _ i j (key_of d1) Huniq); unfold declared_keys.
  - by rewrite list_lookup_fmap, H1.
  - rewrite list_lookup_fmap, H2. unfold key_of. simpl. by rewrite Hkind, Hname.
Qed.

Lemma split_dots_no_dot (s : string) : has_dot s = false → split_dots s = [s].
Proof.
  induction s as [|c s IH]; simpl; [done|].
  destruct (Ascii.eqb c "."); simpl; [done|].
  intros Hs. by rewrite (IH Hs).
Qed.

Lemma split_dots_stacks (s : string) :
  split_dots ("stacks." +:+ s) = "stacks" :: split_dots s.
Proof. reflexivity. Qed.

Lemma assoc_None {A} (k : string) (l : list (string * A)) :
  k ∉ l.*1 → assoc k l = None.
Proof.
  induction l as [|[k' v] l IH]; simpl; [done|].
  intros [Hne Hk]%not_elem_of_cons. by rewrite decide_False, IH.
Qed.

(** A name without a dot that is not the name of a stack package: the import
    of [stacks] succeeds, the import of [stacks.<name>] finds no module. *)
Lemma run_unknown (ctx : Context) :
  has_dot (ctx_stack ctx) = false → ctx_stack ctx ∉ stack_names →
  run ctx = (Raise (ModuleNotFoundError ("stacks." +:+ ctx_stack ctx)), []).
Proof.
  intros Hdot Hnot. unfold run, main, __import__.
  change ((get_stack ≫= _) ctx initial_state) with
    (find_and_load "" source_tree (split_dots ("stacks." +:+ ctx_stack ctx))
       ctx initial_state).
  rewrite split_dots_stacks, (split_dots_no_dot _ Hdot).
  change (find_and_load "" source_tree ["stacks"; ctx_stack ctx] ctx initial_state)
    with (match assoc (ctx_stack ctx) stack_packages with
          | None => raise (ModuleNotFoundError ("stacks." +:+ ctx_stack ctx))
          | Some (Node m sub) =>
              import_module m;; find_and_load ("stacks." +:+ ctx_stack ctx) sub []
          end ctx {| sys_modules := ["stacks"]; globals := []; registered := [] |}).
  rewrite (assoc_None _ _ Hnot). reflexivity.
Qed.

(** * The claims *)

(** C1: the resolution of a declaration set without dangling reference whose
    graph is acyclic returns an apply order; an apply order returned for a
    declaration set (with unique keys) lists every declaration once and
    places every dependency before its dependents.  In the aws stack the
    group membership "administrator" references output attributes of the
    group "admins" and of the user "v2kk", and both are placed before it. *)
Theorem apply_order_places_dependencies_first :
  (∀ decls, closed decls → acyclic decls → ∃ order, resolve decls = Order order) ∧
  (∀ decls order, unique_keys decls → resolve decls = Order order →
     order ≡ₚ declared_keys decls ∧
     ∀ dependent dep, depends_on decls dependent dep → precedes order dep dependent) ∧
  (∀ w, stack_name w = "aws" → outcome w = Ok () →
     ∃ order membership,
       resolve (declared w) = Order order ∧
       find_declaration (declared w) (identitystore_GroupMembership, "administrator")
         = Some membership ∧
       property membership "group_id"
         = Some (VOutput (identitystore_Group, "admins") "group_id") ∧
       property membership "member_id"
         = Some (VOutput (identitystore_User, "v2kk") "user_id") ∧
       precedes order (identitystore_Group, "admins")
                      (identitystore_GroupMembership, "administrator") ∧
       precedes order (identitystore_User, "v2kk")
                      (identitystore_GroupMembership, "administrator")).
Proof.
  split_and!.
  - intros decls. apply resolve_complete.
  - intros decls order Huniq Horder.
    destruct (resolve_sound decls order Huniq Horder) as [Hperm Hres].
    split; [done|]. intros dependent dep. apply Hres.
  - intros w Hname Hok.
    destruct (aws_loaded w Hname Hok) as (sid & arn & rest & acc & _ & _ & _ & ->).
    eexists _, _. split_and!; [by vm_compute|reflexivity|reflexivity|reflexivity| |].
    + exists 1, 5. split_and!; [reflexivity..|lia].
    + exists 3, 5. split_and!; [reflexivity..|lia].
Qed.

Lemma apply_order_places_dependencies_first_witness :
  (∃ order, resolve (declared aws_world) = Order order) ∧
  (resolve (declared vm_hcloud_world)
     = Order [(hcloud_Network, "network");
              (hcloud_NetworkSubnet, "network-subnet-dmz");
              (hcloud_Server, "server")] ∧
   precedes [(hcloud_Network, "network");
             (hcloud_NetworkSubnet, "network-subnet-dmz");
             (hcloud_Server, "server")]
            (hcloud_Network, "network") (hcloud_NetworkSubnet, "network-subnet-dmz")) ∧
  (∃ order membership,
     resolve (declared aws_world) = Order order ∧
     find_declaration (declared aws_world) (identitystore_GroupMembership, "administrator")
       = Some membership ∧
     property membership "group_id"
       = Some (VOutput (identitystore_Group, "admins") "group_id") ∧
     property membership "member_id"
       = Some (VOutput (identitystore_User, "v2kk") "user_id") ∧
     precedes order (identitystore_Group, "admins")
                    (identitystore_GroupMembership, "administrator") ∧
     precedes order (identitystore_User, "v2kk")
                    (identitystore_GroupMembership, "administrator")).
Proof.
  split; [|split].
  - apply (proj1 apply_order_places_dependencies_first (declared aws_world)).
    + apply declared_in_order_closed, declared_in_order_check. vm_compute. reflexivity.
    + apply declared_in_order_acyclic, declared_in_order_check. vm_compute. reflexivity.
  - split; [by vm_compute|].
    refine (proj2 (proj1 (proj2 apply_order_places_dependencies_first)
                     (declared vm_hcloud_world) _ _ _) _ _ _).
    + apply (bool_decide_unpack _). vm_compute. exact I.
    + vm_compute. reflexivity.
    + exists (Declared.network_subnet "10.0.1.0/24"). split_and!.
      * vm_compute. right. left.
      * reflexivity.
      * vm_compute. left.
  - apply (proj2 (proj2 apply_order_places_dependencies_first) aws_world).
    + reflexivity.
    + vm_compute. reflexivity.
Defined.

(** C2, as stated, fails for [account_id]: when it is the missing key, the
    load of the aws stack fails with [MissingConfiguration] naming it, but
    four resources have been declared by then. *)
Lemma missing_account_id_after_declarations :
  stack_name aws_world_without_account_id = "aws" ∧
  config aws_world_without_account_id !! "account_id" = None ∧
  outcome aws_world_without_account_id
    = Raise (MissingConfiguration "account_id" "aws") ∧
  key_of <$> declared aws_world_without_account_id
    = [(ssoadmin_PermissionSet, "administrator");
       (identitystore_Group, "admins");
       (identitystore_Group, "editors");
       (identitystore_User, "v2kk")] ∧
  declared aws_world_without_account_id ≠ [].
Proof. split_and!; [reflexivity|by vm_compute..|]. by vm_compute. Qed.

(** C2, amended: a load fails with [MissingConfiguration], naming the key
    and the stack, at the first required key it finds absent.  For
    [network_ip_range] and [network_subnet_dmz_ip_range] (vm-hcloud) and for
    [sso_identity_store_id] (aws) nothing has been declared by then.  For
    [account_id] (aws, the provider reporting an SSO instance) the permission
    set "administrator", the groups "admins" and "editors" and the user
    "v2kk" have been declared, and nothing else.  The key named by such a
    failure is absent and the stack named is the active one. *)
Theorem missing_configuration_fails_load (w : World) :
  (stack_name w = "vm-hcloud" →
     (config w !! "network_ip_range" = None →
        outcome w = Raise (MissingConfiguration "network_ip_range" "vm-hcloud") ∧
        declared w = []) ∧
     (is_Some (config w !! "network_ip_range") →
      config w !! "network_subnet_dmz_ip_range" = None →
        outcome w = Raise (MissingConfiguration "network_subnet_dmz_ip_range" "vm-hcloud") ∧
        declared w = [])) ∧
  (stack_name w = "aws" →
     (config w !! "sso_identity_store_id" = None →
        outcome w = Raise (MissingConfiguration "sso_identity_store_id" "aws") ∧
        declared w = []) ∧
     (is_Some (config w !! "sso_identity_store_id") → sso_instances w ≠ [] →
      config w !! "account_id" = None →
        outcome w = Raise (MissingConfiguration "account_id" "aws") ∧
        key_of <$> declared w
          = [(ssoadmin_PermissionSet, "administrator");
             (identitystore_Group, "admins");
             (identitystore_Group, "editors");
             (identitystore_User, "v2kk")])) ∧
  (stack_name w = "aws" ∨ stack_name w = "vm-hcloud" →
     ∀ key stack, outcome w = Raise (MissingConfiguration key stack) →
       config w !! key = None ∧ stack = stack_name w).
Proof.
  split_and!.
  - intros Hname. pose proof (vm_hcloud_load w Hname) as Hload.
    split.
    + intros Hr1. rewrite Hr1 in Hload. by injection Hload as -> ->.
    + intros [r1 Hr1] Hr2. rewrite Hr1, Hr2 in Hload. by injection Hload as -> ->.
  - intros Hname. pose proof (aws_load w Hname) as Hload.
    split.
    + intros Hsid. rewrite Hsid in Hload. by injection Hload as -> ->.
    + intros [sid Hsid] Hinst Hacc. rewrite Hsid, Hacc in Hload.
      destruct (sso_instances w) as [|arn rest]; [done|].
      by injection Hload as -> ->.
  - intros [Hname|Hname] key stack Hfail.
    + pose proof (aws_load w Hname) as Hload. rewrite Hfail, Hname in *.
      destruct (config w !! "sso_identity_store_id") as [sid|] eqn:Hsid;
        [destruct (sso_instances w) as [|arn rest]; [done|];
         destruct (config w !! "account_id") as [acc|] eqn:Hacc; [done|]|];
        by injection Hload as -> -> _.
    + pose proof (vm_hcloud_load w Hname) as Hload. rewrite Hfail, Hname in *.
      destruct (config w !! "network_ip_range") as [r1|] eqn:Hr1;
        [destruct (config w !! "network_subnet_dmz_ip_range") as [r2|] eqn:Hr2; [done|]|];
        by injection Hload as -> -> _.
Qed.

Lemma missing_configuration_fails_load_witness :
  outcome aws_world_without_account_id
    = Raise (MissingConfiguration "account_id" "aws") ∧
  key_of <$> declared aws_world_without_account_id
    = [(ssoadmin_PermissionSet, "administrator");
       (identitystore_Group, "admins");
       (identitystore_Group, "editors");
       (identitystore_User, "v2kk")].
Proof.
  apply (proj2 (proj1 (proj2 (missing_configuration_fails_load
                                aws_world_without_account_id)) eq_refl)).
  - by eexists.
  - done.
  - by vm_compute.
Defined.

(** C3, as stated, fails for a dotted name: no stack is named "aws.kms", yet
    the load does not fail; it imports [stacks.aws], which declares the aws
    stack, and then the module [stacks.aws.kms]. *)
Lemma dotted_name_loads_enclosing_stack :
  (stack_name aws_kms_world ∉ stack_names) ∧
  outcome aws_kms_world = Ok () ∧
  declared aws_kms_world = declared aws_world.
Proof.
  split_and!; [|by vm_compute..].
  apply (bool_decide_eq_false_1 _). reflexivity.
Qed.

(** C3, amended: for a stack name without a dot, the load imports the module
    [stacks.<name>] of the source tree; it fails with [ModuleNotFoundError]
    naming that module, before anything is declared, if and only if the name
    is not one of the stacks "aws" and "vm-hcloud"; no other module is ever
    reported missing. *)
Theorem unknown_stack_iff_not_declared (w : World) :
  has_dot (stack_name w) = false →
  stack_names = ["aws"; "vm-hcloud"] ∧
  (outcome w = Raise (ModuleNotFoundError ("stacks." +:+ stack_name w)) ↔
   stack_name w ∉ stack_names) ∧
  (∀ name, outcome w = Raise (ModuleNotFoundError name) →
     name = "stacks." +:+ stack_name w ∧ declared w = []).
Proof.
  intros Hdot. split; [reflexivity|].
  destruct (decide (stack_name w ∈ stack_names)) as [Hin|Hnot].
  - assert (Hnever : ∀ name, outcome w ≠ Raise (ModuleNotFoundError name)).
    { intros name Hfail. unfold stack_names in Hin. simpl in Hin.
      rewrite !elem_of_cons, elem_of_nil in Hin. destruct Hin as [Hname|[Hname|[]]].
      - pose proof (aws_load w Hname) as Hload. rewrite Hfail in Hload.
        destruct (config w !! "sso_identity_store_id"); [|done].
        destruct (sso_instances w); [done|].
        by destruct (config w !! "account_id").
      - pose proof (vm_hcloud_load w Hname) as Hload. rewrite Hfail in Hload.
        destruct (config w !! "network_ip_range"); [|done].
        by destruct (config w !! "network_subnet_dmz_ip_range"). }
    split; [|by intros name ?%Hnever].
    split; [by intros ?%Hnever|done].
  - pose proof (run_unknown (context_of w) Hdot Hnot) as Hrun.
    rewrite run_load in Hrun. injection Hrun as Hout Hdecl.
    split; [done|]. intros name Hfail. rewrite Hout in Hfail. by injection Hfail as <-.
Qed.

Lemma unknown_stack_iff_not_declared_witness :
  stack_names = ["aws"; "vm-hcloud"] ∧
  (outcome staging_world
     = Raise (ModuleNotFoundError ("stacks." +:+ stack_name staging_world)) ↔
   stack_name staging_world ∉ stack_names) ∧
  (∀ name, outcome staging_world = Raise (ModuleNotFoundError name) →
     name = "stacks." +:+ stack_name staging_world ∧ declared staging_world = []).
Proof. apply (unknown_stack_iff_not_declared staging_world). reflexivity. Defined.

(** C4: a load of the vm-hcloud stack declares the server with an explicit
    dependency on the subnet "network-subnet-dmz"; the apply order computed
    for the stack places the subnet before the server, and so does every
    order that respects the declared dependencies. *)
Theorem vm_hcloud_subnet_before_server (w : World) :
  stack_name w = "vm-hcloud" → outcome w = Ok () →
  ∃ server,
    find_declaration (declared w) (hcloud_Server, "server") = Some server ∧
    (hcloud_NetworkSubnet, "network-subnet-dmz") ∈ explicit_dependencies server ∧
    (∃ order, resolve (declared w) = Order order ∧
       precedes order (hcloud_NetworkSubnet, "network-subnet-dmz") (hcloud_Server, "server")) ∧
    (∀ order, respects (declared w) order →
       precedes order (hcloud_NetworkSubnet, "network-subnet-dmz") (hcloud_Server, "server")).
Proof.
  intros Hname Hok.
  destruct (vm_hcloud_loaded w Hname Hok) as (r1 & r2 & _ & _ & ->).
  exists Declared.server. split_and!.
  - reflexivity.
  - left.
  - eexists. split; [by vm_compute|].
    exists 1, 2. split_and!; [reflexivity..|lia].
  - intros order Hres. apply Hres. exists Declared.server. split_and!.
    + do 2 right. left.
    + reflexivity.
    + apply elem_of_app. right. left.
Qed.

Lemma vm_hcloud_subnet_before_server_witness :
  ∃ server,
    find_declaration (declared vm_hcloud_world) (hcloud_Server, "server") = Some server ∧
    (hcloud_NetworkSubnet, "network-subnet-dmz") ∈ explicit_dependencies server ∧
    (∃ order, resolve (declared vm_hcloud_world) = Order order ∧
       precedes order (hcloud_NetworkSubnet, "network-subnet-dmz") (hcloud_Server, "server")) ∧
    (∀ order, respects (declared vm_hcloud_world) order →
       precedes order (hcloud_NetworkSubnet, "network-subnet-dmz") (hcloud_Server, "server")).
Proof.
  apply (vm_hcloud_subnet_before_server vm_hcloud_world).
  - reflexivity.
  - vm_compute. reflexivity.
Defined.

(** C5: in a run of the aws stack or of the vm-hcloud stack, whatever its
    outcome, the graph formed by the attribute references and the explicit
    dependencies of the declarations registered is acyclic. *)
Theorem declared_stacks_acyclic (w : World) :
  stack_name w = "aws" ∨ stack_name w = "vm-hcloud" → acyclic (declared w).
Proof.
  intros [Hname|Hname]; apply declared_in_order_acyclic.
  - by apply aws_declared_in_order.
  - by apply vm_hcloud_declared_in_order.
Qed.

Lemma declared_stacks_acyclic_witness :
  (outcome aws_world = Ok () ∧ length (declared aws_world) = 9 ∧
   acyclic (declared aws_world)) ∧
  (outcome vm_hcloud_world = Ok () ∧ length (declared vm_hcloud_world) = 3 ∧
   acyclic (declared vm_hcloud_world)).
Proof.
  split; (split_and!; [by vm_compute|by vm_compute|]).
  - apply (declared_stacks_acyclic aws_world). left. reflexivity.
  - apply (declared_stacks_acyclic vm_hcloud_world). right. reflexivity.
Defined.

(** C6: among the declarations registered by a run of the aws stack or of the
    vm-hcloud stack, two distinct declarations of the same resource kind have
    different logical names; the three declarations of the aws stack named
    "administrator" are a permission set, a group membership and a managed
    policy attachment, three distinct kinds. *)
Theorem logical_names_unique_per_kind :
  (∀ w, stack_name w = "aws" ∨ stack_name w = "vm-hcloud" →
     ∀ i j d1 d2, i ≠ j →
       declared w !! i = Some d1 → declared w !! j = Some d2 →
       resource_kind d1 = resource_kind d2 → logical_name d1 ≠ logical_name d2) ∧
  (∀ w, stack_name w = "aws" → outcome w = Ok () →
     resource_kind <$> filter (λ d, logical_name d = "administrator") (declared w)
       = [ssoadmin_PermissionSet; identitystore_GroupMembership;
          ssoadmin_ManagedPolicyAttachment] ∧
     NoDup [ssoadmin_PermissionSet; identitystore_GroupMembership;
            ssoadmin_ManagedPolicyAttachment]).
Proof.
  split.
  - intros w Hname. apply unique_keys_names.
    destruct Hname as [Hname|Hname];
      [by apply aws_declared_in_order|by apply vm_hcloud_declared_in_order].
  - intros w Hname Hok.
    destruct (aws_loaded w Hname Hok) as (sid & arn & rest & acc & _ & _ & _ & ->).
    split; [reflexivity|]. apply (bool_decide_unpack _). by vm_compute.
Qed.

Lemma logical_names_unique_per_kind_witness :
  (∃ d1 d2, declared aws_world !! 1 = Some d1 ∧ declared aws_world !! 2 = Some d2 ∧
     resource_kind d1 = identitystore_Group ∧ resource_kind d2 = identitystore_Group ∧
     logical_name d1 ≠ logical_name d2) ∧
  (resource_kind <$> filter (λ d, logical_name d = "administrator") (declared aws_world)
     = [ssoadmin_PermissionSet; identitystore_GroupMembership;
        ssoadmin_ManagedPolicyAttachment] ∧
   NoDup [ssoadmin_PermissionSet; identitystore_GroupMembership;
          ssoadmin_ManagedPolicyAttachment]).
Proof.
  split.
  - exists (Declared.sso_group_admins "d-9067642ac7"),
           (Declared.sso_group_editors "d-9067642ac7").
    split_and!; [by vm_compute|by vm_compute|reflexivity|reflexivity|].
    apply (proj1 logical_names_unique_per_kind aws_world (or_introl eq_refl) 1 2);
      [lia|by vm_compute|by vm_compute|reflexivity].
  - apply (proj2 logical_names_unique_per_kind aws_world); [reflexivity|by vm_compute].
Defined.

(** C7: a loaded aws stack declares exactly one KMS key and exactly one KMS
    alias; the key is described as symmetric and overrides neither the key
    spec nor the key usage of the provider; the alias's [target_key_id] is the
    output attribute [key_id] of that key, and the alias references nothing
    else. *)
Theorem kms_alias_targets_the_key (w : World) :
  stack_name w = "aws" → outcome w = Ok () →
  ∃ key alias,
    filter (λ d, resource_kind d = kms_Key) (declared w) = [key] ∧
    filter (λ d, resource_kind d = kms_Alias) (declared w) = [alias] ∧
    property key "description"
      = Some (VStr "Symmetric encryption KMS key for hcloud_token") ∧
    property key "customer_master_key_spec" = None ∧
    property key "key_usage" = None ∧
    property alias "target_key_id" = Some (VOutput (key_of key) "key_id") ∧
    dependencies alias = [key_of key].
Proof.
  intros Hname Hok.
  destruct (aws_loaded w Hname Hok) as (sid & arn & rest & acc & _ & _ & _ & ->).
  exists Declared.hcloud_token, Declared.hcloud_token_alias.
  split_and!; reflexivity.
Qed.

Lemma kms_alias_targets_the_key_witness :
  ∃ key alias,
    filter (λ d, resource_kind d = kms_Key) (declared aws_world) = [key] ∧
    filter (λ d, resource_kind d = kms_Alias) (declared aws_world) = [alias] ∧
    property key "description"
      = Some (VStr "Symmetric encryption KMS key for hcloud_token") ∧
    property key "customer_master_key_spec" = None ∧
    property key "key_usage" = None ∧
    property alias "target_key_id" = Some (VOutput (key_of key) "key_id") ∧
    dependencies alias = [key_of key].
Proof.
  apply (kms_alias_targets_the_key aws_world); [reflexivity|by vm_compute].
Defined.

(** C8: the aws stack loads (given that the provider reports an SSO
    instance) exactly when [account_id] and [sso_identity_store_id] are
    configured, and the vm-hcloud stack exactly when [network_ip_range] and
    [network_subnet_dmz_ip_range] are; a load that fails for a missing key
    names one of these keys, absent from the configuration. *)
Theorem required_configuration_keys :
  (∀ w, stack_name w = "aws" → sso_instances w ≠ [] →
     (outcome w = Ok () ↔
      ∀ key, key ∈ ["account_id"; "sso_identity_store_id"] → is_Some (config w !! key))) ∧
  (∀ w, stack_name w = "vm-hcloud" →
     (outcome w = Ok () ↔
      ∀ key, key ∈ ["network_ip_range"; "network_subnet_dmz_ip_range"] →
             is_Some (config w !! key))) ∧
  (∀ w key stack, stack_name w = "aws" →
     outcome w = Raise (MissingConfiguration key stack) →
     key ∈ ["account_id"; "sso_identity_store_id"] ∧ config w !! key = None) ∧
  (∀ w key stack, stack_name w = "vm-hcloud" →
     outcome w = Raise (MissingConfiguration key stack) →
     key ∈ ["network_ip_range"; "network_subnet_dmz_ip_range"] ∧ config w !! key = None).
Proof.
  split_and!.
  - intros w Hname Hinst. pose proof (aws_load w Hname) as Hload.
    destruct (config w !! "sso_identity_store_id") as [sid|] eqn:Hsid;
      [destruct (sso_instances w) as [|arn rest]; [done|];
       destruct (config w !! "account_id") as [acc|] eqn:Hacc|];
      injection Hload as -> _.
    + split; [|done]. intros _ key.
      rewrite !elem_of_cons, elem_of_nil. intros [-> |[-> |[]]]; by eexists.
    + split; [done|]. intros Hall.
      destruct (Hall "account_id") as [? ?]; [left|congruence].
    + split; [done|]. intros Hall.
      destruct (Hall "sso_identity_store_id") as [? ?]; [right; left|congruence].
  - intros w Hname. pose proof (vm_hcloud_load w Hname) as Hload.
    destruct (config w !! "network_ip_range") as [r1|] eqn:Hr1;
      [destruct (config w !! "network_subnet_dmz_ip_range") as [r2|] eqn:Hr2|];
      injection Hload as -> _.
    + split; [|done]. intros _ key.
      rewrite !elem_of_cons, elem_of_nil. intros [-> |[-> |[]]]; by eexists.
    + split; [done|]. intros Hall.
      destruct (Hall "network_subnet_dmz_ip_range") as [? ?]; [right; left|congruence].
    + split; [done|]. intros Hall.
      destruct (Hall "network_ip_range") as [? ?]; [left|congruence].
  - intros w key stack Hname Hfail. pose proof (aws_load w Hname) as Hload.
    rewrite Hfail in Hload.
    destruct (config w !! "sso_identity_store_id") as [sid|] eqn:Hsid;
      [destruct (sso_instances w) as [|arn rest]; [done|];
       destruct (config w !! "account_id") as [acc|] eqn:Hacc; [done|]|];
      injection Hload as -> _ _; (split; [|done]).
    + left.
    + right. left.
  - intros w key stack Hname Hfail. pose proof (vm_hcloud_load w Hname) as Hload.
    rewrite Hfail in Hload.
    destruct (config w !! "network_ip_range") as [r1|] eqn:Hr1;
      [destruct (config w !! "network_subnet_dmz_ip_range") as [r2|] eqn:Hr2; [done|]|];
      injection Hload as -> _ _; (split; [|done]).
    + right. left.
    + left.
Qed.

Lemma required_configuration_keys_witness :
  outcome aws_world = Ok () ∧
  outcome vm_hcloud_world = Ok () ∧
  ("account_id" ∈ ["account_id"; "sso_identity_store_id"] ∧
   config aws_world_without_account_id !! "account_id" = None).
Proof.
  split; [|split].
  - refine (proj2 (proj1 required_configuration_keys aws_world eq_refl _) _); [done|].
    intros key. rewrite !elem_of_cons, elem_of_nil.
    intros [-> |[-> |[]]]; by eexists.
  - refine (proj2 (proj1 (proj2 required_configuration_keys) vm_hcloud_world eq_refl) _).
    intros key. rewrite !elem_of_cons, elem_of_nil.
    intros [-> |[-> |[]]]; by eexists.
  - apply (proj1 (proj2 (proj2 required_configuration_keys))
             aws_world_without_account_id "account_id" "aws" eq_refl).
    by vm_compute.
Defined.

(** C9: in a run of the aws stack, every ssoadmin declaration registered has
    as [instance_arn] the first element of the list of SSO instances reported
    by the provider.  When the provider reports an instance and
    [sso_identity_store_id] is configured, the permission set is declared
    with that first element; when [account_id] is configured too, the load
    succeeds and declares the three ssoadmin resources (permission set,
    account assignment, managed policy attachment), each with that first
    element as [instance_arn].  When the provider reports no instance the
    load fails: with [IndexError], before anything is declared, as soon as
    [sso_identity_store_id] is configured. *)
Theorem instance_arn_is_first_sso_instance (w : World) :
  stack_name w = "aws" →
  (∀ d, d ∈ declared w → resource_kind d ∈ ssoadmin_kinds →
     ∃ instance_arn, sso_instances w !! 0 = Some instance_arn ∧
       property d "instance_arn" = Some (VStr instance_arn)) ∧
  (outcome w = Ok () →
     key_of <$> filter (λ d, resource_kind d ∈ ssoadmin_kinds) (declared w)
       = [(ssoadmin_PermissionSet, "administrator");
          (ssoadmin_AccountAssignment, "account_assignment");
          (ssoadmin_ManagedPolicyAttachment, "administrator")]) ∧
  (sso_instances w = [] →
     ∃ e, outcome w = Raise e ∧ declared w = [] ∧
       (is_Some (config w !! "sso_identity_store_id") → e = IndexError)) ∧
  (∀ instance_arn rest, sso_instances w = instance_arn :: rest →
     is_Some (config w !! "sso_identity_store_id") →
     ∃ permission_set,
       declared w !! 0 = Some permission_set ∧
       key_of permission_set = (ssoadmin_PermissionSet, "administrator") ∧
       property permission_set "instance_arn" = Some (VStr instance_arn)) ∧
  (∀ instance_arn rest, sso_instances w = instance_arn :: rest →
     is_Some (config w !! "sso_identity_store_id") →
     is_Some (config w !! "account_id") →
     outcome w = Ok () ∧
     ∃ permission_set assignment attachment,
       filter (λ d, resource_kind d ∈ ssoadmin_kinds) (declared w)
         = [permission_set; assignment; attachment] ∧
       key_of permission_set = (ssoadmin_PermissionSet, "administrator") ∧
       key_of assignment = (ssoadmin_AccountAssignment, "account_assignment") ∧
       key_of attachment = (ssoadmin_ManagedPolicyAttachment, "administrator") ∧
       property permission_set "instance_arn" = Some (VStr instance_arn) ∧
       property assignment "instance_arn" = Some (VStr instance_arn) ∧
       property attachment "instance_arn" = Some (VStr instance_arn)).
Proof.
  intros Hname. pose proof (aws_load w Hname) as Hload.
  destruct (config w !! "sso_identity_store_id") as [sid|];
    [destruct (sso_instances w) as [|arn rest];
      [|destruct (config w !! "account_id") as [acc|]]|];
    injection Hload as -> ->.
  - split_and!; [by intros d ?%elem_of_nil|done| |done|done]. intros _. by eexists.
  - split_and!; [|by intros _|done| |].
    + intros d Hd Hkind. exists arn. split; [done|].
      unfold Declared.aws in Hd. simpl in Hd.
      repeat (apply elem_of_cons in Hd as [-> |Hd]); try reflexivity;
        try (by apply elem_of_nil in Hd);
        exfalso; revert Hkind; apply (bool_decide_eq_false_1 _); reflexivity.
    + intros arn' rest' [= <- <-] _. by eexists.
    + intros arn' rest' [= <- <-] _ _. split; [done|].
      eexists _, _, _. split_and!; reflexivity.
  - split_and!; [|done|done| |].
    + intros d Hd Hkind. exists arn. split; [done|].
      unfold Declared.aws_before_account_id in Hd.
      repeat (apply elem_of_cons in Hd as [-> |Hd]); try reflexivity;
        try (by apply elem_of_nil in Hd);
        exfalso; revert Hkind; apply (bool_decide_eq_false_1 _); reflexivity.
    + intros arn' rest' [= <- <-] _. by eexists.
    + by intros arn' rest' _ _ [? ?].
  - split_and!; [by intros d ?%elem_of_nil|done| | |].
    + intros _. eexists. split_and!; [done..|]. by intros [? ?].
    + by intros arn' rest' _ [? ?].
    + by intros arn' rest' _ [? ?].
Qed.

Lemma instance_arn_is_first_sso_instance_witness :
  (outcome aws_world = Ok () ∧
   ∃ permission_set assignment attachment,
     filter (λ d, resource_kind d ∈ ssoadmin_kinds) (declared aws_world)
       = [permission_set; assignment; attachment] ∧
     key_of permission_set = (ssoadmin_PermissionSet, "administrator") ∧
     key_of assignment = (ssoadmin_AccountAssignment, "account_assignment") ∧
     key_of attachment = (ssoadmin_ManagedPolicyAttachment, "administrator") ∧
     property permission_set "instance_arn"
       = Some (VStr "arn:aws:sso:::instance/ssoins-7223a1b2c3d4e5f6") ∧
     property assignment "instance_arn"
       = Some (VStr "arn:aws:sso:::instance/ssoins-7223a1b2c3d4e5f6") ∧
     property attachment "instance_arn"
       = Some (VStr "arn:aws:sso:::instance/ssoins-7223a1b2c3d4e5f6")) ∧
  (∃ permission_set,
     declared aws_world_without_account_id !! 0 = Some permission_set ∧
     key_of permission_set = (ssoadmin_PermissionSet, "administrator") ∧
     property permission_set "instance_arn"
       = Some (VStr "arn:aws:sso:::instance/ssoins-7223a1b2c3d4e5f6")) ∧
  (∃ e, outcome aws_world_without_instance = Raise e ∧
     declared aws_world_without_instance = [] ∧
     (is_Some (config aws_world_without_instance !! "sso_identity_store_id") →
      e = IndexError)).
Proof.
  split; [|split].
  - apply (proj2 (proj2 (proj2 (proj2 (instance_arn_is_first_sso_instance
                                         aws_world eq_refl))))
             "arn:aws:sso:::instance/ssoins-7223a1b2c3d4e5f6" []).
    + reflexivity.
    + by eexists.
    + by eexists.
  - apply (proj1 (proj2 (proj2 (proj2 (instance_arn_is_first_sso_instance
                                         aws_world_without_account_id eq_refl))))
             "arn:aws:sso:::instance/ssoins-7223a1b2c3d4e5f6" []).
    + reflexivity.
    + by eexists.
  - apply (proj1 (proj2 (proj2 (instance_arn_is_first_sso_instance
                                  aws_world_without_instance eq_refl)))).
    reflexivity.
Defined.

(** C10: in a run of the aws stack, every identity-store declaration
    registered has as [identity_store_id] the configuration value
    [sso_identity_store_id]; a loaded stack has the four of them: the groups
    "admins" and "editors", the user "v2kk" and the group membership
    "administrator". *)
Theorem identity_store_id_is_configured (w : World) :
  stack_name w = "aws" →
  (∀ d, d ∈ declared w → resource_kind d ∈ identitystore_kinds →
     ∃ sso_identity_store_id,
       config w !! "sso_identity_store_id" = Some sso_identity_store_id ∧
       property d "identity_store_id" = Some (VStr sso_identity_store_id)) ∧
  (outcome w = Ok () →
     key_of <$> filter (λ d, resource_kind d ∈ identitystore_kinds) (declared w)
       = [(identitystore_Group, "admins");
          (identitystore_Group, "editors");
          (identitystore_User, "v2kk");
          (identitystore_GroupMembership, "administrator")]).
Proof.
  intros Hname. pose proof (aws_load w Hname) as Hload.
  destruct (config w !! "sso_identity_store_id") as [sid|];
    [destruct (sso_instances w) as [|arn rest];
      [|destruct (config w !! "account_id") as [acc|]]|];
    injection Hload as -> ->.
  - split; [by intros d ?%elem_of_nil|done].
  - split; [|by intros _].
    intros d Hd Hkind. exists sid. split; [done|].
    unfold Declared.aws in Hd. simpl in Hd.
    repeat (apply elem_of_cons in Hd as [-> |Hd]); try reflexivity;
      try (by apply elem_of_nil in Hd);
      exfalso; revert Hkind; apply (bool_decide_eq_false_1 _); reflexivity.
  - split; [|done].
    intros d Hd Hkind. exists sid. split; [done|].
    unfold Declared.aws_before_account_id in Hd.
    repeat (apply elem_of_cons in Hd as [-> |Hd]); try reflexivity;
      try (by apply elem_of_nil in Hd);
      exfalso; revert Hkind; apply (bool_decide_eq_false_1 _); reflexivity.
  - split; [by intros d ?%elem_of_nil|done].
Qed.

Lemma identity_store_id_is_configured_witness :
  (∃ sso_identity_store_id,
     config aws_world !! "sso_identity_store_id" = Some sso_identity_store_id ∧
     property (Declared.group_membership "d-9067642ac7") "identity_store_id"
       = Some (VStr sso_identity_store_id)) ∧
  key_of <$> filter (λ d, resource_kind d ∈ identitystore_kinds) (declared aws_world)
    = [(identitystore_Group, "admins");
       (identitystore_Group, "editors");
       (identitystore_User, "v2kk");
       (identitystore_GroupMembership, "administrator")].
Proof.
  split.
  - apply (proj1 (identity_store_id_is_configured aws_world eq_refl)).
    + vm_compute. do 5 right. left.
    + vm_compute. do 2 right. left.
  - apply (proj2 (identity_store_id_is_configured aws_world eq_refl)).
    by vm_compute.
Defined.

(** * Further properties of the program *)

(** ** Facts used below *)

Lemma index_of_lookup (k : Key) (order : list Key) (i : nat) :
  index_of k order = Some i → order !! i = Some k.
Proof.
  revert i. induction order as [|x order IH]; intros i; simpl; [done|].
  destruct (decide (x = k)) as [->|]; [by intros [= <-]|].
  destruct (index_of k order) as [j|]; [|done].
  intros [= <-]. by apply IH.
Qed.

Lemma lookup_index_of (k : Key) (order : list Key) (i : nat) :
  NoDup order → order !! i = Some k → index_of k order = Some i.
Proof.
  intros Hnd Hi.
  destruct (index_of k order) as [j|] eqn:Hj.
  - f_equal. eapply NoDup_lookup; [done| |done]. by apply index_of_lookup.
  - exfalso. apply list_elem_of_lookup_2 in Hi.
    clear Hnd. induction order as [|x order IH]; [by apply elem_of_nil in Hi|].
    simpl in Hj. destruct (decide (x = k)); [done|].
    apply elem_of_cons in Hi as [->|Hi]; [done|].
    destruct (index_of k order); [done|]. by apply IH.
Qed.

Lemma no_dependents_check (decls : list ResourceDeclaration) (k : Key) :
  forallb (λ d, bool_decide (k ∉ dependencies d)) decls = true →
  ∀ a, ¬ depends_on decls a k.
Proof.
  rewrite forallb_forall. intros Hall a (d & Hd & _ & Hk).
  apply list_elem_of_In in Hd. specialize (Hall _ Hd).
  by apply bool_decide_eq_true in Hall.
Qed.

Lemma split_dots_cons (s : string) : ∃ c rest, split_dots s = c :: rest.
Proof.
  induction s as [|a s (c & rest & IH)]; simpl; [by eexists _, _|].
  destruct (Ascii.eqb a "."); [by eexists _, _|]. rewrite IH. by eexists _, _.
Qed.

Lemma assoc_Some_elem {A} (k : string) (l : list (string * A)) (v : A) :
  assoc k l = Some v → (k, v) ∈ l.
Proof.
  induction l as [|[k' v'] l IH]; simpl; [done|].
  destruct (decide (k = k')) as [->|]; [intros [= ->]; left|]. intros ?%IH. by right.
Qed.

Lemma main_first_component (ctx : Context) (c : string) (rest : list string) :
  split_dots (ctx_stack ctx) = c :: rest →
  main ctx initial_state =
  match assoc c stack_packages with
  | None => (Raise (ModuleNotFoundError ("stacks." +:+ c)), stacks_imported)
  | Some (Node m sub) =>
      (import_module m;; find_and_load ("stacks." +:+ c) sub rest) ctx stacks_imported
  end.
Proof.
  intros Hsplit. unfold main, __import__.
  change ((get_stack ≫= _) ctx initial_state) with
    (find_and_load "" source_tree (split_dots ("stacks." +:+ ctx_stack ctx))
       ctx initial_state).
  rewrite split_dots_stacks, Hsplit.
  change (find_and_load "" source_tree ("stacks" :: c :: rest) ctx initial_state)
    with (match assoc c stack_packages with
          | None => raise (ModuleNotFoundError ("stacks." +:+ c))
          | Some (Node m sub) => import_module m;; find_and_load ("stacks." +:+ c) sub rest
          end ctx stacks_imported).
  by destruct (assoc c stack_packages) as [[m sub]|].
Qed.

Lemma main_stack_package (ctx : Context) (c : string) (rest : list string)
    (m : PyModule) (sub : list (string * ModuleTree)) :
  split_dots (ctx_stack ctx) = c :: rest →
  assoc c stack_packages = Some (Node m sub) →
  main ctx initial_state
  = (import_module m;; find_and_load ("stacks." +:+ c) sub rest) ctx stacks_imported.
Proof.
  intros Hsplit Hc. by rewrite (main_first_component ctx c rest Hsplit), Hc.
Qed.

Lemma find_and_load_quiet (mods : list string) (ctx : Context) (path : list string) :
  ∀ parent children st,
    Forall (λ c, quiet mods c.2) children → mods ⊆ sys_modules st →
    registered (find_and_load parent children path ctx st).2 = registered st ∧
    ((find_and_load parent children path ctx st).1 = Ok () ∨
     ∃ name, (find_and_load parent children path ctx st).1
             = Raise (ModuleNotFoundError name)).
Proof.
  induction path as [|c rest IH]; intros parent children st Hquiet Hmods; simpl.
  { split; [done|by left]. }
  destruct (assoc c children) as [[m sub]|] eqn:Hc; [|split; [done|right; by eexists]].
  apply assoc_Some_elem in Hc.
  rewrite Forall_forall in Hquiet. specialize (Hquiet _ Hc). simpl in Hquiet.
  inversion Hquiet as [m' sub' Hm Hsub]; subst m' sub'.
  set (fullname := if decide (parent = "") then c else parent +:+ "." +:+ c).
  assert (∃ st1, import_module m ctx st = (Ok (), st1) ∧
                 registered st1 = registered st ∧ mods ⊆ sys_modules st1)
    as (st1 & Himport & Hreg & Hmods1).
  { unfold import_module, mbind, M_bind, get_state. simpl.
    destruct (decide (__name__ m ∈ sys_modules st)) as [Hin|Hnotin]; simpl.
    - by exists st.
    - destruct Hm as [Hm|Hm]; [by apply Hmods in Hm|].
      rewrite Hm. eexists. split; [reflexivity|]. simpl. split; [done|].
      intros x Hx. right. by apply Hmods. }
  assert (Hstep : (import_module m;; find_and_load fullname sub rest) ctx st
                  = find_and_load fullname sub rest ctx st1).
  { unfold mbind, M_bind. by rewrite Himport. }
  rewrite Hstep. destruct (IH fullname sub st1 Hsub Hmods1) as [Hreg' Hout].
  by rewrite Hreg', Hreg.
Qed.

Ltac quiet_subtree :=
  repeat first
    [ exact I
    | apply Forall_nil
    | apply Forall_cons_2; simpl
    | constructor;
      [ first [ by right | left; apply (bool_decide_unpack _); by vm_compute ] | ] ].

Lemma aws_submodules_quiet : Forall (λ c, quiet aws_modules c.2) aws_submodules.
Proof. unfold aws_submodules. quiet_subtree. Qed.

(** A path that does not start with [__init__] never reaches the submodule
    [__init__] of the package it starts from. *)
Lemma find_and_load_not_init (parent : string) (init : ModuleTree)
    (others : list (string * ModuleTree)) (path : list string) :
  head path ≠ Some "__init__" →
  find_and_load parent (("__init__", init) :: others) path
  = find_and_load parent others path.
Proof.
  destruct path as [|c rest]; [done|]. simpl. intros Hc.
  rewrite decide_False; [done|]. congruence.
Qed.

(** The import of the aws package under any stack name. *)
Lemma aws_import (name : string) (cfg : string → option string)
    (instances : list string) (account : string) :
  let r := import_module stacks.aws.module
             {| ctx_stack := name; ctx_config := cfg;
                ctx_sso_instances := instances; ctx_caller_account := account |}
             stacks_imported in
  (r.1, registered r.2) =
    match cfg "sso_identity_store_id" with
    | None => (Raise (MissingConfiguration "sso_identity_store_id" name), [])
    | Some sso_identity_store_id =>
        match instances with
        | [] => (Raise IndexError, [])
        | instance_arn :: _ =>
            match cfg "account_id" with
            | None =>
                (Raise (MissingConfiguration "account_id" name),
                 Declared.aws_before_account_id sso_identity_store_id instance_arn)
            | Some account_id =>
                (Ok (), Declared.aws sso_identity_store_id instance_arn account_id)
            end
        end
    end ∧
  (r.1 = Ok () → sys_modules r.2 = aws_modules ∧
     ∀ x k, (x, k) ∈ aws_resource_variables →
       lookup_global "stacks.aws" x (globals r.2) = Some (PResource k)).
Proof.
  vm_compute.
  destruct (cfg "sso_identity_store_id"); [|by split].
  destruct instances; [by split|].
  destruct (cfg "account_id"); [|by split].
  split; [done|]. intros _. split; [done|].
  intros x k Hx. repeat (apply elem_of_cons in Hx as [[= -> ->]|Hx]; [reflexivity|]).
  by apply elem_of_nil in Hx.
Qed.

(** The import of the vm-hcloud package under any stack name. *)
Lemma vm_hcloud_import (name : string) (cfg : string → option string)
    (instances : list string) (account : string) :
  let r := import_module stacks.vm_hcloud.module
             {| ctx_stack := name; ctx_config := cfg;
                ctx_sso_instances := instances; ctx_caller_account := account |}
             stacks_imported in
  (r.1, registered r.2) =
    match cfg "network_ip_range" with
    | None => (Raise (MissingConfiguration "network_ip_range" name), [])
    | Some network_ip_range =>
        match cfg "network_subnet_dmz_ip_range" with
        | None => (Raise (MissingConfiguration "network_subnet_dmz_ip_range" name), [])
        | Some network_subnet_dmz_ip_range =>
            (Ok (), Declared.vm_hcloud network_ip_range network_subnet_dmz_ip_range)
        end
    end.
Proof.
  vm_compute.
  destruct (cfg "network_ip_range"); [|done].
  by destruct (cfg "network_subnet_dmz_ip_range").
Qed.

(** After the import [r] of a stack package, the rest of a dotted path
    declares nothing when the subtree is quiet. *)
Lemma import_then_path (ctx : Context) (m : PyModule) (mods : list string)
    (parent : string) (sub : list (string * ModuleTree)) (path : list string) :
  let r := import_module m ctx stacks_imported in
  let r' := (import_module m;; find_and_load parent sub path) ctx stacks_imported in
  Forall (λ c, quiet mods c.2) sub →
  (r.1 = Ok () → mods ⊆ sys_modules r.2) →
  registered r'.2 = registered r.2 ∧
  (∀ e, r.1 = Raise e → r'.1 = Raise e) ∧
  (r.1 = Ok () → r'.1 = Ok () ∨ ∃ name, r'.1 = Raise (ModuleNotFoundError name)).
Proof.
  intros r r' Hquiet Hmods. subst r'. unfold mbind, M_bind. fold r.
  destruct r as [[[]|e] st]; simpl in *; [|done].
  destruct (find_and_load_quiet mods ctx path parent sub st Hquiet (Hmods eq_refl))
    as [Hreg Hout].
  by split_and!.
Qed.

(** The import of the aws package followed by the import of a path below
    it that starts with [__init__]: the file [__init__.py] runs again, and
    constructs nothing, its submodules being imported already. *)
Lemma aws_import_init (name : string) (cfg : string → option string)
    (instances : list string) (account : string) (rest : list string) :
  let r := (import_module stacks.aws.module;;
            find_and_load "stacks.aws" aws_children ("__init__" :: rest))
             {| ctx_stack := name; ctx_config := cfg;
                ctx_sso_instances := instances; ctx_caller_account := account |}
             stacks_imported in
  (r.1, registered r.2) =
    match cfg "sso_identity_store_id" with
    | None => (Raise (MissingConfiguration "sso_identity_store_id" name), [])
    | Some sso_identity_store_id =>
        match instances with
        | [] => (Raise IndexError, [])
        | instance_arn :: _ =>
            match cfg "account_id" with
            | None =>
                (Raise (MissingConfiguration "account_id" name),
                 Declared.aws_before_account_id sso_identity_store_id instance_arn)
            | Some account_id =>
                (match rest with
                 | [] => Ok ()
                 | c :: _ => Raise (ModuleNotFoundError ("stacks.aws.__init__." +:+ c))
                 end,
                 Declared.aws sso_identity_store_id instance_arn account_id)
            end
        end
    end.
Proof.
  destruct rest as [|c rest]; vm_compute;
    (destruct (cfg "sso_identity_store_id"); [|done]);
    (destruct instances; [done|]);
    by destruct (cfg "account_id").
Qed.

(** The same for the vm-hcloud package: the file [__init__.py] runs again
    and constructs its three resources a second time. *)
Lemma vm_hcloud_import_init (name : string) (cfg : string → option string)
    (instances : list string) (account : string) (rest : list string) :
  let r := (import_module stacks.vm_hcloud.module;;
            find_and_load "stacks.vm-hcloud"
              [("__init__", Node stacks.vm_hcloud.init_module [])] ("__init__" :: rest))
             {| ctx_stack := name; ctx_config := cfg;
                ctx_sso_instances := instances; ctx_caller_account := account |}
             stacks_imported in
  (r.1, registered r.2) =
    match cfg "network_ip_range" with
    | None => (Raise (MissingConfiguration "network_ip_range" name), [])
    | Some network_ip_range =>
        match cfg "network_subnet_dmz_ip_range" with
        | None => (Raise (MissingConfiguration "network_subnet_dmz_ip_range" name), [])
        | Some network_subnet_dmz_ip_range =>
            (match rest with
             | [] => Ok ()
             | c :: _ => Raise (ModuleNotFoundError ("stacks.vm-hcloud.__init__." +:+ c))
             end,
             Declared.vm_hcloud network_ip_range network_subnet_dmz_ip_range ++
             Declared.vm_hcloud network_ip_range network_subnet_dmz_ip_range)
        end
    end.
Proof.
  destruct rest as [|c rest]; vm_compute;
    (destruct (cfg "network_ip_range") eqn:E1; [|done]);
    (destruct (cfg "network_subnet_dmz_ip_range") eqn:E2; [|done]);
    rewrite ?E1, ?E2; vm_compute; rewrite ?E1, ?E2; reflexivity.
Qed.

(** What the load of a dotted path below the aws package ends in and
    registers: what the import of the package does, except that the path
    may name no module. *)
Lemma aws_path_run (name : string) (cfg : string → option string)
    (instances : list string) (account : string) (path : list string) :
  let r := (import_module stacks.aws.module;;
            find_and_load "stacks.aws" aws_children path)
             {| ctx_stack := name; ctx_config := cfg;
                ctx_sso_instances := instances; ctx_caller_account := account |}
             stacks_imported in
  ∃ out, (out = Ok () ∨ ∃ missing, out = Raise (ModuleNotFoundError missing)) ∧
  (r.1, registered r.2) =
    match cfg "sso_identity_store_id" with
    | None => (Raise (MissingConfiguration "sso_identity_store_id" name), [])
    | Some sso_identity_store_id =>
        match instances with
        | [] => (Raise IndexError, [])
        | instance_arn :: _ =>
            match cfg "account_id" with
            | None =>
                (Raise (MissingConfiguration "account_id" name),
                 Declared.aws_before_account_id sso_identity_store_id instance_arn)
            | Some account_id =>
                (out, Declared.aws sso_identity_store_id instance_arn account_id)
            end
        end
    end.
Proof.
  intros r. subst r.
  set (ctx := {| ctx_stack := name; ctx_config := cfg;
                 ctx_sso_instances := instances; ctx_caller_account := account |}).
  destruct (decide (head path = Some "__init__")) as [Hinit|Hinit].
  - destruct path as [|c rest]; [done|]. injection Hinit as ->.
    pose proof (aws_import_init name cfg instances account rest) as Hrun.
    cbv zeta in Hrun. fold ctx in Hrun. rewrite Hrun.
    exists (match rest with
            | [] => Ok ()
            | c :: _ => Raise (ModuleNotFoundError ("stacks.aws.__init__." +:+ c))
            end).
    split; [|done]. destruct rest; [by left|right; by eexists].
  - change aws_children
      with (("__init__", Node stacks.aws.init_module []) :: aws_submodules).
    rewrite (find_and_load_not_init _ _ _ _ Hinit).
    destruct (aws_import name cfg instances account) as [Hrun Hmods].
    fold ctx in Hrun, Hmods.
    destruct (import_then_path ctx stacks.aws.module aws_modules "stacks.aws"
                aws_submodules path aws_submodules_quiet) as (Hreg & Hfail & Hout).
    { intros Hr. destruct (Hmods Hr) as [Hm _]. by rewrite Hm. }
    rewrite Hreg.
    destruct (cfg "sso_identity_store_id") as [sid|];
      [destruct instances as [|arn rest]; [|destruct (cfg "account_id") as [acc|]]|];
      injection Hrun as Hr ->; try (exists (Ok ()); by rewrite (Hfail _ Hr); split; [left|]).
    eexists. split; [exact (Hout Hr)|done].
Qed.

Lemma vm_hcloud_path_run (name : string) (cfg : string → option string)
    (instances : list string) (account : string) (path : list string) :
  let r := (import_module stacks.vm_hcloud.module;;
            find_and_load "stacks.vm-hcloud"
              [("__init__", Node stacks.vm_hcloud.init_module [])] path)
             {| ctx_stack := name; ctx_config := cfg;
                ctx_sso_instances := instances; ctx_caller_account := account |}
             stacks_imported in
  ∃ out, (out = Ok () ∨ ∃ missing, out = Raise (ModuleNotFoundError missing)) ∧
  (r.1, registered r.2) =
    match cfg "network_ip_range" with
    | None => (Raise (MissingConfiguration "network_ip_range" name), [])
    | Some network_ip_range =>
        match cfg "network_subnet_dmz_ip_range" with
        | None => (Raise (MissingConfiguration "network_subnet_dmz_ip_range" name), [])
        | Some network_subnet_dmz_ip_range =>
            (out,
             if decide (head path = Some "__init__")
             then Declared.vm_hcloud network_ip_range network_subnet_dmz_ip_range ++
                  Declared.vm_hcloud network_ip_range network_subnet_dmz_ip_range
             else Declared.vm_hcloud network_ip_range network_subnet_dmz_ip_range)
        end
    end.
Proof.
  intros r. subst r.
  set (ctx := {| ctx_stack := name; ctx_config := cfg;
                 ctx_sso_instances := instances; ctx_caller_account := account |}).
  destruct (decide (head path = Some "__init__")) as [Hinit|Hinit].
  - destruct path as [|c rest]; [done|]. injection Hinit as ->.
    pose proof (vm_hcloud_import_init name cfg instances account rest) as Hrun.
    cbv zeta in Hrun. fold ctx in Hrun. rewrite Hrun.
    exists (match rest with
            | [] => Ok ()
            | c :: _ => Raise (ModuleNotFoundError ("stacks.vm-hcloud.__init__." +:+ c))
            end).
    split; [|done]. destruct rest; [by left|right; by eexists].
  - rewrite (find_and_load_not_init _ _ _ _ Hinit).
    pose proof (vm_hcloud_import name cfg instances account) as Hrun.
    cbv zeta in Hrun. fold ctx in Hrun.
    destruct (import_then_path ctx stacks.vm_hcloud.module [] "stacks.vm-hcloud"
                [] path (Forall_nil_2 _)) as (Hreg & Hfail & Hout).
    { intros _ x Hx. by apply elem_of_nil in Hx. }
    rewrite Hreg.
    destruct (cfg "network_ip_range") as [r1|];
      [destruct (cfg "network_subnet_dmz_ip_range") as [r2|]|];
      injection Hrun as Hr ->; try (exists (Ok ()); by rewrite (Hfail _ Hr); split; [left|]).
    eexists. split; [exact (Hout Hr)|done].
Qed.

(** A load of the aws stack ends in the state the import of the package
    leaves. *)
Lemma aws_load_state (w : World) :
  stack_name w = "aws" →
  outcome w = Ok () →
  (import_module stacks.aws.module (context_of w) stacks_imported).1 = Ok () ∧
  (load w).2 = (import_module stacks.aws.module (context_of w) stacks_imported).2.
Proof.
  intros Hname. unfold outcome, load.
  rewrite (main_stack_package (context_of w) "aws" [] stacks.aws.module aws_children);
    [|by simpl; rewrite Hname|done].
  unfold mbind, M_bind.
  by destruct (import_module stacks.aws.module (context_of w) stacks_imported)
    as [[[]|e] st].
Qed.

(** ** The properties *)

(** X1: given that the provider queries of the sources answer (the world
    supplies the list of SSO instances and the caller identity), a load of
    the aws stack ends in one of four ways and a load of the vm-hcloud stack
    in one of three: success, a missing configuration key, or (aws)
    [IndexError] on an empty list of SSO instances.  In particular no
    [from ... import] of the sources fails: every name a module imports is
    bound by the module it is imported from. *)
Theorem load_outcomes (w : World) :
  (stack_name w = "aws" →
     outcome w ∈ [Ok ();
                  Raise (MissingConfiguration "sso_identity_store_id" "aws");
                  Raise IndexError;
                  Raise (MissingConfiguration "account_id" "aws")]) ∧
  (stack_name w = "vm-hcloud" →
     outcome w ∈ [Ok ();
                  Raise (MissingConfiguration "network_ip_range" "vm-hcloud");
                  Raise (MissingConfiguration "network_subnet_dmz_ip_range" "vm-hcloud")]) ∧
  (stack_name w = "aws" ∨ stack_name w = "vm-hcloud" →
     ∀ module name, outcome w ≠ Raise (ImportError module name)).
Proof.
  assert (Haws : stack_name w = "aws" →
            outcome w ∈ [Ok ();
                         Raise (MissingConfiguration "sso_identity_store_id" "aws");
                         Raise IndexError;
                         Raise (MissingConfiguration "account_id" "aws")]).
  { intros Hname. pose proof (aws_load w Hname) as Hload.
    destruct (config w !! "sso_identity_store_id");
      [destruct (sso_instances w); [|destruct (config w !! "account_id")]|];
      injection Hload as -> _; set_solver. }
  assert (Hvm : stack_name w = "vm-hcloud" →
            outcome w ∈ [Ok ();
                         Raise (MissingConfiguration "network_ip_range" "vm-hcloud");
                         Raise (MissingConfiguration "network_subnet_dmz_ip_range"
                                  "vm-hcloud")]).
  { intros Hname. pose proof (vm_hcloud_load w Hname) as Hload.
    destruct (config w !! "network_ip_range");
      [destruct (config w !! "network_subnet_dmz_ip_range")|];
      injection Hload as -> _; set_solver. }
  split_and!; [done..|].
  intros [Hin%Haws|Hin%Hvm] module name Hfail; rewrite Hfail in Hin;
    repeat (apply elem_of_cons in Hin as [?|Hin]; [done|]);
    by apply elem_of_nil in Hin.
Qed.

Lemma load_outcomes_witness :
  outcome aws_world_without_instance
    ∈ [Ok ();
       Raise (MissingConfiguration "sso_identity_store_id" "aws");
       Raise IndexError;
       Raise (MissingConfiguration "account_id" "aws")] ∧
  outcome vm_hcloud_world
    ∈ [Ok ();
       Raise (MissingConfiguration "network_ip_range" "vm-hcloud");
       Raise (MissingConfiguration "network_subnet_dmz_ip_range" "vm-hcloud")].
Proof.
  split.
  - apply (proj1 (load_outcomes aws_world_without_instance)). reflexivity.
  - apply (proj1 (proj2 (load_outcomes vm_hcloud_world))). reflexivity.
Defined.

(** X2: the outcome and the declarations of a load of the aws stack depend
    only on the configuration values [sso_identity_store_id] and
    [account_id] and on the first SSO instance reported; those of the
    vm-hcloud stack only on [network_ip_range] and
    [network_subnet_dmz_ip_range].  Other configuration keys, further SSO
    instances and the caller identity ([current], which nothing reads) have
    no influence. *)
Theorem declarations_determined_by_inputs (w1 w2 : World) :
  (stack_name w1 = "aws" → stack_name w2 = "aws" →
   config w1 !! "sso_identity_store_id" = config w2 !! "sso_identity_store_id" →
   config w1 !! "account_id" = config w2 !! "account_id" →
   sso_instances w1 !! 0 = sso_instances w2 !! 0 →
   outcome w1 = outcome w2 ∧ declared w1 = declared w2) ∧
  (stack_name w1 = "vm-hcloud" → stack_name w2 = "vm-hcloud" →
   config w1 !! "network_ip_range" = config w2 !! "network_ip_range" →
   config w1 !! "network_subnet_dmz_ip_range" = config w2 !! "network_subnet_dmz_ip_range" →
   outcome w1 = outcome w2 ∧ declared w1 = declared w2).
Proof.
  split.
  - intros H1 H2 Hsid Hacc Hinst.
    pose proof (aws_load w1 H1) as L1. pose proof (aws_load w2 H2) as L2.
    rewrite Hsid, Hacc in L1.
    destruct (sso_instances w1) as [|a1 r1], (sso_instances w2) as [|a2 r2];
      simpl in Hinst; try done; [|injection Hinst as ->];
      rewrite <- L2 in L1; by injection L1.
  - intros H1 H2 Hr1 Hr2.
    pose proof (vm_hcloud_load w1 H1) as L1. pose proof (vm_hcloud_load w2 H2) as L2.
    rewrite Hr1, Hr2, <- L2 in L1. by injection L1.
Qed.

Lemma declarations_determined_by_inputs_witness :
  caller_account aws_world ≠ caller_account aws_world_variant ∧
  outcome aws_world = outcome aws_world_variant ∧
  declared aws_world = declared aws_world_variant.
Proof.
  split; [done|].
  apply (proj1 (declarations_determined_by_inputs aws_world aws_world_variant));
    reflexivity.
Defined.

(** X3: setting a configuration key that was absent never removes or changes
    a declaration the load made without it: the declarations of the first
    load are a prefix of those of the second. *)
Theorem configuring_a_missing_key_only_adds (w : World) (key value : string) :
  stack_name w = "aws" ∨ stack_name w = "vm-hcloud" →
  config w !! key = None →
  declared w `prefix_of` declared (configure key value w).
Proof.
  intros Hname Hkey.
  assert (Hother : ∀ k, k ≠ key → config (configure key value w) !! k = config w !! k).
  { intros k Hk. simpl. by rewrite lookup_insert_ne. }
  assert (Hthis : config (configure key value w) !! key = Some value).
  { simpl. by rewrite lookup_insert_eq. }
  destruct Hname as [Hname|Hname].
  - pose proof (aws_load w Hname) as L.
    pose proof (aws_load (configure key value w) Hname) as L'.
    change (sso_instances (configure key value w)) with (sso_instances w) in L'.
    destruct (decide (key = "sso_identity_store_id")) as [->|Hsid].
    { rewrite Hkey in L. injection L as _ ->. apply prefix_nil. }
    rewrite (Hother _ (not_eq_sym Hsid)) in L'.
    destruct (config w !! "sso_identity_store_id") as [sid|]; [|by rewrite <- L' in L; injection L as _ ->].
    destruct (sso_instances w) as [|arn rest]; [by rewrite <- L' in L; injection L as _ ->|].
    destruct (decide (key = "account_id")) as [->|Hacc].
    { rewrite Hkey in L. rewrite Hthis in L'. injection L as _ ->. injection L' as _ ->.
      by eexists. }
    rewrite (Hother _ (not_eq_sym Hacc)) in L'. rewrite <- L' in L. by injection L as _ ->.
  - pose proof (vm_hcloud_load w Hname) as L.
    pose proof (vm_hcloud_load (configure key value w) Hname) as L'.
    destruct (decide (key = "network_ip_range")) as [->|Hr1].
    { rewrite Hkey in L. injection L as _ ->. apply prefix_nil. }
    rewrite (Hother _ (not_eq_sym Hr1)) in L'.
    destruct (config w !! "network_ip_range") as [r1|]; [|by rewrite <- L' in L; injection L as _ ->].
    destruct (decide (key = "network_subnet_dmz_ip_range")) as [->|Hr2].
    { rewrite Hkey in L. injection L as _ ->. apply prefix_nil. }
    rewrite (Hother _ (not_eq_sym Hr2)) in L'. rewrite <- L' in L. by injection L as _ ->.
Qed.

Lemma configuring_a_missing_key_only_adds_witness :
  length (declared aws_world_without_account_id) = 4 ∧
  length (declared (configure "account_id" "123456789012" aws_world_without_account_id)) = 9 ∧
  declared aws_world_without_account_id
    `prefix_of` declared (configure "account_id" "123456789012"
                            aws_world_without_account_id).
Proof.
  split_and!; [by vm_compute..|].
  apply (configuring_a_missing_key_only_adds aws_world_without_account_id).
  - left. reflexivity.
  - reflexivity.
Defined.

(** X4: in a run of either stack, whatever its outcome, every reference and
    every [depends_on] entry of a declaration points to a declaration
    registered earlier in the same run: no reference dangles and none points
    forward. *)
Theorem references_point_backwards (w : World) :
  stack_name w = "aws" ∨ stack_name w = "vm-hcloud" →
  ∀ i d target, declared w !! i = Some d → target ∈ dependencies d →
    ∃ j d', j < i ∧ declared w !! j = Some d' ∧ key_of d' = target.
Proof.
  intros Hname i d target Hi Htarget.
  assert (Hin : declared_in_order (declared w)).
  { destruct Hname; [by apply aws_declared_in_order|by apply vm_hcloud_declared_in_order]. }
  destruct Hin as [Huniq Hres].
  destruct (Hres (key_of d) target) as (j & i' & Hj & Hi' & Hlt).
  { exists d. split_and!; [|done..]. by eapply list_elem_of_lookup_2. }
  assert (Hkey : declared_keys (declared w) !! i = Some (key_of d)).
  { unfold declared_keys. by rewrite list_lookup_fmap, Hi. }
  rewrite (lookup_index_of _ _ _ Huniq Hkey) in Hi'. injection Hi' as <-.
  apply index_of_lookup in Hj. unfold declared_keys in Hj.
  rewrite list_lookup_fmap in Hj.
  destruct (declared w !! j) as [d'|] eqn:Hd'; [|done].
  injection Hj as Hj. by exists j, d'.
Qed.

Lemma references_point_backwards_witness :
  ∃ j d', j < 5 ∧ declared aws_world !! j = Some d' ∧
          key_of d' = (identitystore_User, "v2kk").
Proof.
  apply (references_point_backwards aws_world (or_introl eq_refl) 5
           (Declared.group_membership "d-9067642ac7")).
  - by vm_compute.
  - vm_compute. right. left.
Defined.

(** X5: nothing in the aws stack depends on the group "editors": it is
    declared, but it has no member and no account assignment; every group
    membership declared is a membership of the group "admins". *)
Theorem editors_group_is_unused (w : World) :
  stack_name w = "aws" →
  (∀ a, ¬ depends_on (declared w) a (identitystore_Group, "editors")) ∧
  (outcome w = Ok () →
     is_Some (find_declaration (declared w) (identitystore_Group, "editors")) ∧
     ∀ d, d ∈ declared w → resource_kind d = identitystore_GroupMembership →
       property d "group_id" = Some (VOutput (identitystore_Group, "admins") "group_id")).
Proof.
  intros Hname. pose proof (aws_load w Hname) as Hload. split.
  - apply no_dependents_check.
    destruct (config w !! "sso_identity_store_id");
      [destruct (sso_instances w); [|destruct (config w !! "account_id")]|];
      by injection Hload as _ ->.
  - intros Hok.
    destruct (aws_loaded w Hname Hok) as (sid & arn & rest & acc & _ & _ & _ & ->).
    split; [by eexists|].
    intros d Hd Hkind. unfold Declared.aws in Hd. simpl in Hd.
    repeat (apply elem_of_cons in Hd as [-> |Hd]); try done.
    by apply elem_of_nil in Hd.
Qed.

Lemma editors_group_is_unused_witness :
  (¬ depends_on (declared aws_world)
       (ssoadmin_AccountAssignment, "account_assignment")
       (identitystore_Group, "editors")) ∧
  is_Some (find_declaration (declared aws_world) (identitystore_Group, "editors")) ∧
  property (Declared.group_membership "d-9067642ac7") "group_id"
    = Some (VOutput (identitystore_Group, "admins") "group_id").
Proof.
  split; [|split].
  - apply (proj1 (editors_group_is_unused aws_world eq_refl)).
  - apply (proj2 (editors_group_is_unused aws_world eq_refl)). by vm_compute.
  - apply (proj2 (proj2 (editors_group_is_unused aws_world eq_refl) eq_refl)).
    + vm_compute. do 5 right. left.
    + reflexivity.
Defined.

(** X6: in a loaded aws stack the account assignment grants, on the
    configured account [account_id], the permission set to which the policy
    AdministratorAccess is attached, to the group of which the user "v2kk"
    is made a member: the assignment and the attachment reference the same
    permission set, the assignment and the membership the same group. *)
Theorem administrator_access_wiring (w : World) :
  stack_name w = "aws" → outcome w = Ok () →
  ∃ assignment attachment membership account_id,
    find_declaration (declared w) (ssoadmin_AccountAssignment, "account_assignment")
      = Some assignment ∧
    find_declaration (declared w) (ssoadmin_ManagedPolicyAttachment, "administrator")
      = Some attachment ∧
    find_declaration (declared w) (identitystore_GroupMembership, "administrator")
      = Some membership ∧
    config w !! "account_id" = Some account_id ∧
    property attachment "managed_policy_arn"
      = Some (VStr "arn:aws:iam::aws:policy/AdministratorAccess") ∧
    property attachment "permission_set_arn" = property assignment "permission_set_arn" ∧
    property assignment "permission_set_arn"
      = Some (VOutput (ssoadmin_PermissionSet, "administrator") "arn") ∧
    property assignment "principal_type" = Some (VStr "GROUP") ∧
    property assignment "principal_id" = property membership "group_id" ∧
    property membership "group_id"
      = Some (VOutput (identitystore_Group, "admins") "group_id") ∧
    property membership "member_id"
      = Some (VOutput (identitystore_User, "v2kk") "user_id") ∧
    property assignment "target_type" = Some (VStr "AWS_ACCOUNT") ∧
    property assignment "target_id" = Some (VStr account_id).
Proof.
  intros Hname Hok.
  destruct (aws_loaded w Hname Hok) as (sid & arn & rest & acc & _ & _ & Hacc & ->).
  exists (Declared.account_assignment arn acc), (Declared.managed_policy_attachment arn),
    (Declared.group_membership sid), acc.
  split_and!; done.
Qed.

Lemma administrator_access_wiring_witness :
  ∃ assignment attachment membership account_id,
    find_declaration (declared aws_world) (ssoadmin_AccountAssignment, "account_assignment")
      = Some assignment ∧
    find_declaration (declared aws_world) (ssoadmin_ManagedPolicyAttachment, "administrator")
      = Some attachment ∧
    find_declaration (declared aws_world) (identitystore_GroupMembership, "administrator")
      = Some membership ∧
    config aws_world !! "account_id" = Some account_id ∧
    property attachment "managed_policy_arn"
      = Some (VStr "arn:aws:iam::aws:policy/AdministratorAccess") ∧
    property attachment "permission_set_arn" = property assignment "permission_set_arn" ∧
    property assignment "permission_set_arn"
      = Some (VOutput (ssoadmin_PermissionSet, "administrator") "arn") ∧
    property assignment "principal_type" = Some (VStr "GROUP") ∧
    property assignment "principal_id" = property membership "group_id" ∧
    property membership "group_id"
      = Some (VOutput (identitystore_Group, "admins") "group_id") ∧
    property membership "member_id"
      = Some (VOutput (identitystore_User, "v2kk") "user_id") ∧
    property assignment "target_type" = Some (VStr "AWS_ACCOUNT") ∧
    property assignment "target_id" = Some (VStr account_id).
Proof.
  apply (administrator_access_wiring aws_world); [reflexivity|by vm_compute].
Defined.

(** X7: a loaded vm-hcloud stack declares the network, the subnet and the
    server, in this order; the network and the subnet take their IP ranges
    from the configuration; the subnet and the server's network attachment
    reference the [id] of that one network; the attachment has the address
    10.0.1.5 with the aliases 10.0.1.6 and 10.0.1.7; the server depends on
    the network (by reference) and on the subnet (by [depends_on]). *)
Theorem vm_hcloud_network_wiring (w : World) :
  stack_name w = "vm-hcloud" → outcome w = Ok () →
  ∃ network subnet server attachment,
    declared w = [network; subnet; server] ∧
    key_of network = (hcloud_Network, "network") ∧
    VStr <$> config w !! "network_ip_range" = property network "ip_range" ∧
    VStr <$> config w !! "network_subnet_dmz_ip_range" = property subnet "ip_range" ∧
    property subnet "network_id" = Some (VOutput (key_of network) "id") ∧
    property server "networks" = Some (VList [attachment]) ∧
    dict_get "network_id" attachment = Some (VOutput (key_of network) "id") ∧
    dict_get "ip" attachment = Some (VStr "10.0.1.5") ∧
    dict_get "alias_ips" attachment = Some (VList [VStr "10.0.1.6"; VStr "10.0.1.7"]) ∧
    dependencies server = [key_of network; key_of subnet].
Proof.
  intros Hname Hok.
  destruct (vm_hcloud_loaded w Hname Hok) as (r1 & r2 & Hr1 & Hr2 & ->).
  eexists _, _, _, _. rewrite Hr1, Hr2. split_and!; reflexivity.
Qed.

Lemma vm_hcloud_network_wiring_witness :
  ∃ network subnet server attachment,
    declared vm_hcloud_world = [network; subnet; server] ∧
    key_of network = (hcloud_Network, "network") ∧
    VStr <$> config vm_hcloud_world !! "network_ip_range" = property network "ip_range" ∧
    VStr <$> config vm_hcloud_world !! "network_subnet_dmz_ip_range"
      = property subnet "ip_range" ∧
    property subnet "network_id" = Some (VOutput (key_of network) "id") ∧
    property server "networks" = Some (VList [attachment]) ∧
    dict_get "network_id" attachment = Some (VOutput (key_of network) "id") ∧
    dict_get "ip" attachment = Some (VStr "10.0.1.5") ∧
    dict_get "alias_ips" attachment = Some (VList [VStr "10.0.1.6"; VStr "10.0.1.7"]) ∧
    dependencies server = [key_of network; key_of subnet].
Proof.
  apply (vm_hcloud_network_wiring vm_hcloud_world); [reflexivity|by vm_compute].
Defined.

(** X8: the dependencies declared in the vm-hcloud stack form a chain
    (the subnet references the network, the server depends on the subnet), so
    exactly one order of its three declarations respects them: network,
    subnet, server. *)
Theorem vm_hcloud_only_one_order (w : World) (order : list Key) :
  stack_name w = "vm-hcloud" → outcome w = Ok () →
  order ≡ₚ declared_keys (declared w) → respects (declared w) order →
  order = [(hcloud_Network, "network");
           (hcloud_NetworkSubnet, "network-subnet-dmz");
           (hcloud_Server, "server")].
Proof.
  intros Hname Hok Hperm Hres.
  destruct (vm_hcloud_loaded w Hname Hok) as (r1 & r2 & _ & _ & Hdecl).
  rewrite Hdecl in *. clear Hdecl.
  assert (Hlen : length order = 3) by by rewrite Hperm.
  destruct (Hres (hcloud_NetworkSubnet, "network-subnet-dmz") (hcloud_Network, "network"))
    as (i & j & Hi & Hj & Hij).
  { exists (Declared.network_subnet r2). split_and!; [set_solver|done|]. vm_compute. left. }
  destruct (Hres (hcloud_Server, "server") (hcloud_NetworkSubnet, "network-subnet-dmz"))
    as (j' & k & Hj' & Hk & Hjk).
  { exists Declared.server. split_and!; [set_solver|done|]. vm_compute. right. left. }
  rewrite Hj in Hj'. injection Hj' as <-.
  apply index_of_lookup in Hi, Hj, Hk.
  pose proof (lookup_lt_Some _ _ _ Hk) as Hbound.
  assert (i = 0 ∧ j = 1 ∧ k = 2) as (-> & -> & ->) by lia.
  destruct order as [|a [|b [|c [|? ?]]]]; try done.
  simpl in Hi, Hj, Hk. by injection Hi as ->; injection Hj as ->; injection Hk as ->.
Qed.

Lemma vm_hcloud_only_one_order_witness :
  declared_keys (declared vm_hcloud_world)
  = [(hcloud_Network, "network");
     (hcloud_NetworkSubnet, "network-subnet-dmz");
     (hcloud_Server, "server")].
Proof.
  apply (vm_hcloud_only_one_order vm_hcloud_world).
  - reflexivity.
  - by vm_compute.
  - reflexivity.
  - apply respectsb_respects. by vm_compute.
Defined.

(** X9: whatever follows the first dot, a stack name whose first component
    is not "aws" or "vm-hcloud" makes the load fail with
    [ModuleNotFoundError] naming [stacks.<first component>], before
    anything is declared. *)
Theorem unknown_first_component (w : World) (c : string) (rest : list string) :
  split_dots (stack_name w) = c :: rest → c ∉ stack_names →
  outcome w = Raise (ModuleNotFoundError ("stacks." +:+ c)) ∧ declared w = [].
Proof.
  intros Hsplit Hnot. unfold outcome, declared, load.
  rewrite (main_first_component (context_of w) c rest Hsplit).
  by rewrite (assoc_None _ _ Hnot).
Qed.

Lemma unknown_first_component_witness :
  outcome staging_eu_world = Raise (ModuleNotFoundError "stacks.staging") ∧
  declared staging_eu_world = [].
Proof.
  apply (unknown_first_component staging_eu_world "staging" ["eu"]).
  - reflexivity.
  - apply (bool_decide_eq_false_1 _). reflexivity.
Defined.

(** X10: a stack name whose first component is "aws" declares exactly what
    the aws stack declares, whatever follows the first dot: the submodules
    are imported already, and [__init__.py], run again for a path that
    starts with [__init__], constructs nothing itself.  Under "vm-hcloud"
    the same holds except for a path that starts with [__init__]: there
    [__init__.py] runs a second time and every resource of the stack is
    declared twice.  In both cases, where the stack loads the dotted name
    loads too or fails with [ModuleNotFoundError], and where the dotted name
    loads the stack does. *)
Theorem dotted_stack_name_declares_the_stack (w : World) (path : list string) :
  (split_dots (stack_name w) = "aws" :: path →
     declared w = declared (with_stack "aws" w) ∧
     (outcome w = Ok () → outcome (with_stack "aws" w) = Ok ()) ∧
     (outcome (with_stack "aws" w) = Ok () →
        outcome w = Ok () ∨ ∃ name, outcome w = Raise (ModuleNotFoundError name))) ∧
  (split_dots (stack_name w) = "vm-hcloud" :: path →
     declared w
       = (if decide (head path = Some "__init__")
          then declared (with_stack "vm-hcloud" w) ++ declared (with_stack "vm-hcloud" w)
          else declared (with_stack "vm-hcloud" w)) ∧
     (outcome w = Ok () → outcome (with_stack "vm-hcloud" w) = Ok ()) ∧
     (outcome (with_stack "vm-hcloud" w) = Ok () →
        outcome w = Ok () ∨ ∃ name, outcome w = Raise (ModuleNotFoundError name))).
Proof.
  destruct w as [name cfg instances account].
  set (w := Build_World name cfg instances account).
  split; intros Hsplit.
  - pose proof (aws_load (with_stack "aws" w) eq_refl) as Hload.
    cbn [with_stack config sso_instances w] in Hload.
    unfold outcome at 1 4 5, declared at 1, load.
    rewrite (main_stack_package (context_of w) "aws" path stacks.aws.module aws_children
               Hsplit eq_refl).
    destruct (aws_path_run name (λ k, cfg !! k) instances account path)
      as (out & Hout & Hrun).
    set (r := @mbind M _ _ _ _ _ (context_of w) stacks_imported).
    match type of Hrun with
    | _ = ?rhs => change ((r.1, registered r.2) = rhs) in Hrun
    end.
    clearbody r.
    destruct (cfg !! "sso_identity_store_id") as [sid|];
      [destruct instances as [|arn rest]; [|destruct (cfg !! "account_id") as [acc|]]|];
      injection Hrun as -> ->; injection Hload as -> ->; by split_and!.
  - pose proof (vm_hcloud_load (with_stack "vm-hcloud" w) eq_refl) as Hload.
    cbn [with_stack config sso_instances w] in Hload.
    unfold outcome at 1 4 5, declared at 1, load.
    rewrite (main_stack_package (context_of w) "vm-hcloud" path stacks.vm_hcloud.module
               [("__init__", Node stacks.vm_hcloud.init_module [])] Hsplit eq_refl).
    destruct (vm_hcloud_path_run name (λ k, cfg !! k) instances account path)
      as (out & Hout & Hrun).
    set (r := @mbind M _ _ _ _ _ (context_of w) stacks_imported).
    match type of Hrun with
    | _ = ?rhs => change ((r.1, registered r.2) = rhs) in Hrun
    end.
    clearbody r.
    destruct (cfg !! "network_ip_range") as [r1|];
      [destruct (cfg !! "network_subnet_dmz_ip_range") as [r2|]|];
      injection Hrun as -> ->; injection Hload as -> ->;
      (split_and!; [by destruct (decide _)|done..]).
Qed.

Lemma dotted_stack_name_declares_the_stack_witness :
  (declared aws_kms_world = declared (with_stack "aws" aws_kms_world) ∧
   length (declared aws_kms_world) = 9) ∧
  (declared (with_stack "aws.__init__" aws_world) = declared aws_world ∧
   outcome (with_stack "aws.__init__" aws_world) = Ok ()) ∧
  (declared (with_stack "vm-hcloud.__init__" vm_hcloud_world)
     = declared vm_hcloud_world ++ declared vm_hcloud_world ∧
   outcome (with_stack "vm-hcloud.__init__" vm_hcloud_world) = Ok () ∧
   length (declared (with_stack "vm-hcloud.__init__" vm_hcloud_world)) = 6) ∧
  (declared (with_stack "vm-hcloud.server" vm_hcloud_world) = declared vm_hcloud_world ∧
   outcome (with_stack "vm-hcloud.server" vm_hcloud_world)
     = Raise (ModuleNotFoundError "stacks.vm-hcloud.server")).
Proof.
  split_and!.
  - apply (proj1 (dotted_stack_name_declares_the_stack aws_kms_world ["kms"])).
    reflexivity.
  - by vm_compute.
  - apply (proj1 (dotted_stack_name_declares_the_stack
                    (with_stack "aws.__init__" aws_world) ["__init__"])).
    reflexivity.
  - by vm_compute.
  - apply (proj1 (proj2 (dotted_stack_name_declares_the_stack
                           (with_stack "vm-hcloud.__init__" vm_hcloud_world)
                           ["__init__"]) eq_refl)).
  - by vm_compute.
  - by vm_compute.
  - apply (proj1 (proj2 (dotted_stack_name_declares_the_stack
                           (with_stack "vm-hcloud.server" vm_hcloud_world)
                           ["server"]) eq_refl)).
  - by vm_compute.
Defined.

(** X11: after a load of the aws stack, the package namespace [stacks.aws]
    binds every resource variable of its submodules (re-exported by the
    [from ... import *] lines) to the resource that variable was assigned,
    and that resource is among the declarations. *)
Theorem aws_package_exports (w : World) :
  stack_name w = "aws" → outcome w = Ok () →
  ∀ variable k, (variable, k) ∈ aws_resource_variables →
    lookup_global "stacks.aws" variable (globals (load w).2) = Some (PResource k) ∧
    is_Some (find_declaration (declared w) k).
Proof.
  intros Hname Hok variable k Hvar. split.
  - destruct (aws_load_state w Hname Hok) as [Hr ->].
    destruct w as [name cfg instances account]. simpl in Hname. subst name.
    destruct (aws_import "aws" (λ k, cfg !! k) instances account) as [_ Hmods].
    by apply (proj2 (Hmods Hr)).
  - destruct (aws_loaded w Hname Hok) as (sid & arn & rest & acc & _ & _ & _ & ->).
    unfold aws_resource_variables in Hvar.
    repeat (apply elem_of_cons in Hvar as [[= -> ->]|Hvar]; [by eexists|]).
    by apply elem_of_nil in Hvar.
Qed.

Lemma aws_package_exports_witness :
  lookup_global "stacks.aws" "hcloud_token_alias" (globals (load aws_world).2)
    = Some (PResource (kms_Alias, "hcloud_token_a")) ∧
  is_Some (find_declaration (declared aws_world) (kms_Alias, "hcloud_token_a")).
Proof.
  apply (aws_package_exports aws_world); [reflexivity|by vm_compute|].
  vm_compute. do 8 right. left.
Defined.
